(** * The autotuner's compile / execute / profile utility

    A shallow embedding of
    [tensorflow/compiler/xla/service/gpu/autotuner_compile_util.cc]:
    the compilation key, the process-wide executable cache, the backend
    invocation with its sanitised debug options, the binding of device
    buffers to executable parameters and [GenerateAndProfileExecutable].

    The code talks to collaborators that live outside the file (the module
    extractor callback, the backend compiler, the executable, the stream and
    the GPU timer).  Every call to one of them is recorded in a trace of
    events, and its answer is an arbitrary function of the trace so far, so
    the collaborators may be stateful.  The model is sequential: the mutex
    that guards the cache is not represented. *)

From stdpp Require Import base decidable option list strings countable gmap.

Set Default Proof Using "Type".

(** ** absl::Status and StatusOr *)

Module Status.

(** The non-OK values of [absl::StatusCode]. *)
Inductive ErrorCode :=
| Cancelled | Unknown | InvalidArgument | DeadlineExceeded | NotFound
| AlreadyExists | PermissionDenied | ResourceExhausted
| FailedPrecondition | Aborted | OutOfRange | Unimplemented | Internal
| Unavailable | DataLoss | Unauthenticated.

Inductive StatusCode :=
| kOk
| kError (c : ErrorCode).

Definition kResourceExhausted : StatusCode := kError ResourceExhausted.
Definition kInternal : StatusCode := kError Internal.

#[global] Instance ErrorCode_eq_dec : EqDecision ErrorCode.
Proof. solve_decision. Defined.
#[global] Instance StatusCode_eq_dec : EqDecision StatusCode.
Proof. solve_decision. Defined.

(** What a status that is not OK carries.  Payloads are kept in insertion
    order under their type URL. *)
Record Error := {
  error_code : ErrorCode;
  message : string;
  payloads : list (string * string)
}.

(** An OK status carries neither message nor payload. *)
Inductive Status :=
| OkStatus
| NotOkStatus (e : Error).

Definition ok (s : Status) : bool :=
  match s with OkStatus => true | NotOkStatus _ => false end.

Definition code (s : Status) : StatusCode :=
  match s with OkStatus => kOk | NotOkStatus e => kError (error_code e) end.

Fixpoint find_payload (ps : list (string * string)) (type_url : string)
  : option string :=
  match ps with
  | [] => None
  | (u, p) :: ps' =>
      if decide (u = type_url) then Some p else find_payload ps' type_url
  end.

Definition GetPayload (s : Status) (type_url : string) : option string :=
  match s with
  | OkStatus => None
  | NotOkStatus e => find_payload (payloads e) type_url
  end.

Definition has_value {A} (o : option A) : bool :=
  match o with Some _ => true | None => false end.

(** [StatusOr<T>]: a value, or a status that is not OK. *)
Inductive StatusOr (T : Type) :=
| OkValue (v : T)
| NotOk (e : Error).
Arguments OkValue {T} v.
Arguments NotOk {T} e.

Definition status {T} (r : StatusOr T) : Status :=
  match r with
  | OkValue _ => OkStatus
  | NotOk e => NotOkStatus e
  end.

End Status.
Import Status.

(** ** Data carried around by the utility *)

Record Shape := { element_type : string; dimensions : list Z }.

Record HloInstruction := { shape : Shape }.

(** [se::DeviceMemoryBase]: an address and a size in bytes. *)
Record DeviceMemoryBase := { opaque : Z; size : Z }.

Inductive MaybeOwningDeviceMemory :=
| Unowned (mem : DeviceMemoryBase)
| Owned (mem : DeviceMemoryBase).

(** [ExecutionInput]: the shape it was built from, and the buffer set at
    the root index [{}], if any. *)
Record ExecutionInput := {
  input_shape : Shape;
  root_input_buffer : option MaybeOwningDeviceMemory
}.

Definition SetUnownedBuffer (i : ExecutionInput) (b : MaybeOwningDeviceMemory)
  : ExecutionInput :=
  {| input_shape := input_shape i; root_input_buffer := Some b |}.

(** [Executable]: what the code reads of it is the parameter list of the
    entry computation of its module. *)
Record Executable := {
  executable_name : string;
  parameter_instructions : list HloInstruction
}.

(** [ExecutionOutput::ConsumeResult().root_buffer()]. *)
Record ExecutionOutput := { root_buffer : DeviceMemoryBase }.

Definition ConsumeResult (o : ExecutionOutput) : ExecutionOutput := o.

(** [DebugOptions]: the six fields the code sets, and all the others. *)
Record DebugOptions := {
  xla_dump_to : string;
  xla_gpu_dump_autotune_results_to : string;
  xla_gpu_load_autotune_results_from : string;
  xla_gpu_dump_llvmir : bool;
  xla_gpu_force_compilation_parallelism : Z;
  xla_gpu_enable_xla_runtime_executable : bool;
  other_options : list (string * string)
}.

Record HloModuleConfig := {
  debug_options : DebugOptions;
  seed : Z;
  replica_count : Z
}.

Record HloModule := { module_name : string; config : HloModuleConfig }.

(** [HloComputation]: what the code reads of it is its parent module. *)
Record HloComputation := { parent : HloModule }.

Definition Stream := Z.
Definition GpuTimer := Z.
Definition Duration := Z.

(** The run options [Execute] assembles. *)
Record ServiceExecutableRunOptions := {
  device_ordinal : Z;
  stream : Stream;
  allocator : Z;
  requires_exclusive_lock_on_gpu : bool
}.

(** The members of an [AutotunerCompileUtil] object, apart from the compiler,
    which is one of the collaborators below. *)
Record AutotunerCompileUtil := {
  stream_executor_device_ordinal : Z;
  stream_ : Stream;
  allocator_ : Z
}.

(** ** Calls to collaborators *)

Inductive Event :=
| EvModuleExtractor
| EvCompilerRunBackend (m : HloModule)
| EvExecuteAsyncOnStreamWrapper (e : Executable)
    (o : ServiceExecutableRunOptions) (arguments : list ExecutionInput)
| EvBlockHostUntilDone (s : Stream)
| EvGpuTimerCreate (s : Stream)
| EvGetElapsedDuration (t : GpuTimer)
| EvThenMemcpy (s : Stream) (dst src : DeviceMemoryBase) (n : Z).

(** Each collaborator answers from the calls made before this one and from
    its arguments.  The backend compiler answers with an executable or with
    an error, as its interface says, and so does the module extractor with a
    module. *)
Record Collaborators := {
  compiler_RunBackend : list Event -> HloModule -> StatusOr Executable;
  ExecuteAsyncOnStreamWrapper :
    list Event -> Executable -> ServiceExecutableRunOptions ->
    list ExecutionInput -> StatusOr ExecutionOutput;
  BlockHostUntilDone : list Event -> Stream -> Status;
  GpuTimer_Create : list Event -> Stream -> StatusOr GpuTimer;
  GetElapsedDuration : list Event -> GpuTimer -> StatusOr Duration
}.

(** [ExtractModuleFn]: [std::function<StatusOr<std::unique_ptr<HloModule>>()>]. *)
Definition ExtractModuleFn := list Event -> StatusOr HloModule.

(** ** The compilation key *)

(** Modelled from the spec: the cache identity, an opaque fingerprint of
    (device type, graph content).  The class [AutotuneCacheKey] is declared
    in [autotuner_util.h], which is not among the sources; two identities
    are equal when both parts are, and its hash combines both parts. *)
Record AutotuneCacheKey := { model_str : string; hlo_canonical : string }.

#[global] Instance AutotuneCacheKey_eq_dec : EqDecision AutotuneCacheKey.
Proof. solve_decision. Defined.

#[global] Program Instance AutotuneCacheKey_countable : Countable AutotuneCacheKey :=
  inj_countable' (fun k => (model_str k, hlo_canonical k))
                 (fun p => {| model_str := p.1; hlo_canonical := p.2 |}) _.
Next Obligation. by intros []. Qed.

(** absl's hashing protocol: a value is hashed by extending a hash state
    [H]; [H::combine(h, a, b)] extends [h] by [a] and then by [b]. *)
Class AbslHashable (H A : Type) := AbslHashValue : H -> A -> H.
#[global] Hint Mode AbslHashable - ! : typeclass_instances.

Definition combine2 {H A B} `{AbslHashable H A, AbslHashable H B}
    (h : H) (a : A) (b : B) : H :=
  AbslHashValue (AbslHashValue h a) b.

#[global] Instance AutotuneCacheKey_hashable {H} `{AbslHashable H string}
  : AbslHashable H AutotuneCacheKey :=
  fun h w => combine2 h (model_str w) (hlo_canonical w).

(** [AutotuneResult] is a protocol buffer message; the code uses only its
    serialisation. *)
Record CompilationKey (AutotuneResult : Type) := {
  autotune_key : AutotuneCacheKey;
  res : AutotuneResult
}.
Arguments autotune_key {AutotuneResult} _.
Arguments res {AutotuneResult} _.

Section Key.
Context {AutotuneResult : Type}.
Context (SerializeAsString : AutotuneResult -> string).

(** [AbslHashValue(H h, const CompilationKey& k)]. *)
Definition CompilationKey_AbslHashValue {H} `{AbslHashable H string}
  : AbslHashable H (CompilationKey AutotuneResult) :=
  fun h k => combine2 h (autotune_key k) (SerializeAsString (res k)).

(** [CompilationKey::operator==]. *)
Definition operator_eq (this k : CompilationKey AutotuneResult) : bool :=
  bool_decide (SerializeAsString (res this) = SerializeAsString (res k))
  && bool_decide (autotune_key this = autotune_key k).

(** The hash map tells keys apart by [operator_eq] only; [slot] is what
    [operator_eq] compares, and the map is indexed by it. *)
Definition slot (k : CompilationKey AutotuneResult)
  : AutotuneCacheKey * string :=
  (autotune_key k, SerializeAsString (res k)).

End Key.

(** ** State and control flow *)

(** The process-wide [executable_cache], where a null [unique_ptr] is
    [None], and the calls made to collaborators so far. *)
Record World := {
  executable_cache : gmap (AutotuneCacheKey * string) (option Executable);
  trace : list Event
}.

(** How a function ends: it returns a value, it returns a status that is
    not OK ([TF_ASSIGN_OR_RETURN], [TF_RETURN_IF_ERROR], [TF_RET_CHECK]), or
    the process dies on a failed [CHECK] or an uncaught exception. *)
Inductive Outcome (A : Type) :=
| Value (a : A)
| Failed (e : Error)
| Crashed (what : string).
Arguments Value {A} a.
Arguments Failed {A} e.
Arguments Crashed {A} what.

Definition M (A : Type) : Type := World -> Outcome A * World.

#[global] Instance M_ret : MRet M := fun A a w => (Value a, w).

#[global] Instance M_bind : MBind M := fun A B f m w =>
  match m w with
  | (Value a, w') => f a w'
  | (Failed e, w') => (Failed e, w')
  | (Crashed what, w') => (Crashed what, w')
  end.

Definition failed {A} (e : Error) : M A := fun w => (Failed e, w).

Definition lift {A} (o : Outcome A) : M A := fun w => (o, w).

(** [TF_ASSIGN_OR_RETURN] on a [StatusOr]. *)
Definition of_StatusOr {T} (r : StatusOr T) : M T :=
  match r with OkValue v => mret v | NotOk e => failed e end.

(** [TF_RETURN_IF_ERROR] on a [Status]. *)
Definition of_Status (s : Status) : M unit :=
  match s with OkStatus => mret tt | NotOkStatus e => failed e end.

(** [TF_RET_CHECK(condition)]: an internal error when the condition is
    false. *)
Definition TF_RET_CHECK (condition : bool) (text : string) : M unit :=
  if condition then mret tt
  else failed {| error_code := Internal;
                 message := "RET_CHECK failure " +:+ text;
                 payloads := [] |}.

Definition history : M (list Event) := fun w => (Value (trace w), w).

Definition call (e : Event) : M unit := fun w =>
  (Value tt,
   {| executable_cache := executable_cache w; trace := trace w ++ [e] |}).

(** ** Binding buffers to parameters *)

Definition emplace_back (inputs : list ExecutionInput) (s : Shape)
  : list ExecutionInput :=
  inputs ++ [{| input_shape := s; root_input_buffer := None |}].

(** [inputs.back().SetUnownedBuffer({}, b)]. *)
Definition set_back (inputs : list ExecutionInput)
    (b : MaybeOwningDeviceMemory) : list ExecutionInput :=
  match reverse inputs with
  | [] => inputs
  | x :: before => reverse before ++ [SetUnownedBuffer x b]
  end.

(** One turn of the loop; [at] throws [std::out_of_range] past the end.
    The loop counter is an [int]: parameter lists are taken to be shorter
    than 2^31. *)
Definition bind_parameter (params : list HloInstruction)
    (buffers : list DeviceMemoryBase) (inputs : Outcome (list ExecutionInput))
    (i : nat) : Outcome (list ExecutionInput) :=
  match inputs with
  | Value inputs =>
      match params !! i, buffers !! i with
      | Some p, Some b => Value (set_back (emplace_back inputs (shape p)) (Unowned b))
      | _, _ => Crashed "std::out_of_range"
      end
  | other => other
  end.

Definition ExecutionInputsFromBuffers (executable : Executable)
    (buffers : list DeviceMemoryBase) : Outcome (list ExecutionInput) :=
  let params := parameter_instructions executable in
  if decide (length params = length buffers) then
    foldl (bind_parameter params buffers) (Value []) (seq 0 (length params))
  else Crashed "CHECK_EQ(params.size(), buffers.size())".

(** ** Debug options of the nested compilation *)

Definition set_xla_dump_to (o : DebugOptions) (v : string) : DebugOptions :=
  {| xla_dump_to := v;
     xla_gpu_dump_autotune_results_to := xla_gpu_dump_autotune_results_to o;
     xla_gpu_load_autotune_results_from := xla_gpu_load_autotune_results_from o;
     xla_gpu_dump_llvmir := xla_gpu_dump_llvmir o;
     xla_gpu_force_compilation_parallelism :=
       xla_gpu_force_compilation_parallelism o;
     xla_gpu_enable_xla_runtime_executable :=
       xla_gpu_enable_xla_runtime_executable o;
     other_options := other_options o |}.

Definition set_xla_gpu_dump_autotune_results_to (o : DebugOptions)
    (v : string) : DebugOptions :=
  {| xla_dump_to := xla_dump_to o;
     xla_gpu_dump_autotune_results_to := v;
     xla_gpu_load_autotune_results_from := xla_gpu_load_autotune_results_from o;
     xla_gpu_dump_llvmir := xla_gpu_dump_llvmir o;
     xla_gpu_force_compilation_parallelism :=
       xla_gpu_force_compilation_parallelism o;
     xla_gpu_enable_xla_runtime_executable :=
       xla_gpu_enable_xla_runtime_executable o;
     other_options := other_options o |}.

Definition set_xla_gpu_load_autotune_results_from (o : DebugOptions)
    (v : string) : DebugOptions :=
  {| xla_dump_to := xla_dump_to o;
     xla_gpu_dump_autotune_results_to := xla_gpu_dump_autotune_results_to o;
     xla_gpu_load_autotune_results_from := v;
     xla_gpu_dump_llvmir := xla_gpu_dump_llvmir o;
     xla_gpu_force_compilation_parallelism :=
       xla_gpu_force_compilation_parallelism o;
     xla_gpu_enable_xla_runtime_executable :=
       xla_gpu_enable_xla_runtime_executable o;
     other_options := other_options o |}.

Definition set_xla_gpu_dump_llvmir (o : DebugOptions) (v : bool)
  : DebugOptions :=
  {| xla_dump_to := xla_dump_to o;
     xla_gpu_dump_autotune_results_to := xla_gpu_dump_autotune_results_to o;
     xla_gpu_load_autotune_results_from := xla_gpu_load_autotune_results_from o;
     xla_gpu_dump_llvmir := v;
     xla_gpu_force_compilation_parallelism :=
       xla_gpu_force_compilation_parallelism o;
     xla_gpu_enable_xla_runtime_executable :=
       xla_gpu_enable_xla_runtime_executable o;
     other_options := other_options o |}.

Definition set_xla_gpu_force_compilation_parallelism (o : DebugOptions)
    (v : Z) : DebugOptions :=
  {| xla_dump_to := xla_dump_to o;
     xla_gpu_dump_autotune_results_to := xla_gpu_dump_autotune_results_to o;
     xla_gpu_load_autotune_results_from := xla_gpu_load_autotune_results_from o;
     xla_gpu_dump_llvmir := xla_gpu_dump_llvmir o;
     xla_gpu_force_compilation_parallelism := v;
     xla_gpu_enable_xla_runtime_executable :=
       xla_gpu_enable_xla_runtime_executable o;
     other_options := other_options o |}.

Definition set_xla_gpu_enable_xla_runtime_executable (o : DebugOptions)
    (v : bool) : DebugOptions :=
  {| xla_dump_to := xla_dump_to o;
     xla_gpu_dump_autotune_results_to := xla_gpu_dump_autotune_results_to o;
     xla_gpu_load_autotune_results_from := xla_gpu_load_autotune_results_from o;
     xla_gpu_dump_llvmir := xla_gpu_dump_llvmir o;
     xla_gpu_force_compilation_parallelism :=
       xla_gpu_force_compilation_parallelism o;
     xla_gpu_enable_xla_runtime_executable := v;
     other_options := other_options o |}.

(** [module->config().set_debug_options(options)]. *)
Definition set_debug_options (m : HloModule) (o : DebugOptions) : HloModule :=
  {| module_name := module_name m;
     config := {| debug_options := o;
                  seed := seed (config m);
                  replica_count := replica_count (config m) |} |}.

(** The options [RunBackend] compiles under. *)
Definition backend_debug_options (original_computation : HloComputation)
  : DebugOptions :=
  let options := debug_options (config (parent original_computation)) in
  let options := set_xla_dump_to options "" in
  let options := set_xla_gpu_dump_autotune_results_to options "" in
  let options := set_xla_gpu_load_autotune_results_from options "" in
  let options := set_xla_gpu_dump_llvmir options false in
  let options := set_xla_gpu_force_compilation_parallelism options 1 in
  set_xla_gpu_enable_xla_runtime_executable options false.

(** ** The utility *)

Section AutotunerCompileUtil.
Context {AutotuneResult : Type}.
Context (SerializeAsString : AutotuneResult -> string).
(** The payload tag of an uncompilable fusion, a constant of
    [ir_emission_utils.h]. *)
Context (kUncompilableFusion : string).
Context (env : Collaborators).
Context (this : AutotunerCompileUtil).

Definition RunBackend (original_computation : HloComputation)
    (module : HloModule) : M (option Executable) :=
  let options := backend_debug_options original_computation in
  let module := set_debug_options module options in
  h ← history;
  call (EvCompilerRunBackend module);;
  let out := compiler_RunBackend env h module in
  if decide (code (status out) = kResourceExhausted) then mret None
  else match out with
       | OkValue executable => mret (Some executable)
       | NotOk e => failed e
       end.

Definition CompileNoCache (original_computation : HloComputation)
    (module_extractor : ExtractModuleFn) : M (option Executable) :=
  h ← history;
  call EvModuleExtractor;;
  let new_hlo_module := module_extractor h in
  if has_value (GetPayload (status new_hlo_module) kUncompilableFusion)
  then mret None
  else match new_hlo_module with
       | NotOk e => failed e
       | OkValue module => RunBackend original_computation module
       end.

(** [executable_cache.find(key)]: the mapped pointer, if the key is there. *)
Definition find (key : CompilationKey AutotuneResult)
  : M (option (option Executable)) :=
  fun w => (Value (executable_cache w !! slot SerializeAsString key), w).

(** [executable_cache.emplace(key, executable)] followed by
    [it->second.get()]: nothing is inserted under a key that is there. *)
Definition emplace (key : CompilationKey AutotuneResult)
    (executable : option Executable) : M (option Executable) :=
  fun w =>
    match executable_cache w !! slot SerializeAsString key with
    | Some second => (Value second, w)
    | None =>
        (Value executable,
         {| executable_cache :=
              <[slot SerializeAsString key := executable]> (executable_cache w);
            trace := trace w |})
    end.

Definition Compile (hlo_computation : HloComputation) (res : AutotuneResult)
    (cache_key : AutotuneCacheKey) (extractor : ExtractModuleFn)
  : M (option Executable) :=
  let key := {| autotune_key := cache_key; res := res |} in
  it ← find key;
  match it with
  | Some second => mret second
  | None =>
      executable ← CompileNoCache hlo_computation extractor;
      emplace key executable
  end.

(** The run options [Execute] assembles: the device, stream and allocator
    of the utility, and the exclusive lock on the GPU. *)
Definition service_run_options : ServiceExecutableRunOptions :=
  {| device_ordinal := stream_executor_device_ordinal this;
     stream := stream_ this;
     allocator := allocator_ this;
     requires_exclusive_lock_on_gpu := true |}.

Definition Execute (executable : Executable)
    (arguments : list ExecutionInput) : M ExecutionOutput :=
  h ← history;
  call (EvExecuteAsyncOnStreamWrapper executable service_run_options arguments);;
  of_StatusOr
    (ExecuteAsyncOnStreamWrapper env h executable service_run_options arguments).

Definition stream_BlockHostUntilDone (stream : Stream) : M unit :=
  h ← history;
  call (EvBlockHostUntilDone stream);;
  of_Status (BlockHostUntilDone env h stream).

Definition GpuTimer_Create_on (stream : Stream) : M GpuTimer :=
  h ← history;
  call (EvGpuTimerCreate stream);;
  of_StatusOr (GpuTimer_Create env h stream).

Definition timer_GetElapsedDuration (timer : GpuTimer) : M Duration :=
  h ← history;
  call (EvGetElapsedDuration timer);;
  of_StatusOr (GetElapsedDuration env h timer).

Definition stream_ThenMemcpy (stream : Stream) (dst src : DeviceMemoryBase)
    (n : Z) : M unit :=
  call (EvThenMemcpy stream dst src n).

Definition GenerateAndProfileExecutable (hlo_computation : HloComputation)
    (config : AutotuneResult) (cache_key : AutotuneCacheKey)
    (stream : Stream) (input_buffers : list DeviceMemoryBase)
    (output_buffer : DeviceMemoryBase) (extractor : ExtractModuleFn)
  : M (option Duration) :=
  executable ← Compile hlo_computation config cache_key extractor;
  match executable with
  | None => mret None
  | Some executable =>
      execution_inputs ← lift (ExecutionInputsFromBuffers executable input_buffers);
      _ ← Execute executable execution_inputs;
      stream_BlockHostUntilDone stream;;
      execution_inputs ← lift (ExecutionInputsFromBuffers executable input_buffers);
      timer ← GpuTimer_Create_on stream;
      execution_output ← Execute executable execution_inputs;
      timer_duration ← timer_GetElapsedDuration timer;
      let result := ConsumeResult execution_output in
      TF_RET_CHECK (bool_decide (size output_buffer = size (root_buffer result)))
        "output_buffer.size() == result.root_buffer().size()";;
      stream_ThenMemcpy stream output_buffer (root_buffer result)
        (size (root_buffer result));;
      mret (Some timer_duration)
  end.

(** The warm-up run, the drain and the timed run of
    [GenerateAndProfileExecutable], as a computation of their own. *)
Definition warmup_and_timed_run (executable : Executable) (stream : Stream)
    (input_buffers : list DeviceMemoryBase) : M (ExecutionOutput * Duration) :=
  execution_inputs ← lift (ExecutionInputsFromBuffers executable input_buffers);
  _ ← Execute executable execution_inputs;
  stream_BlockHostUntilDone stream;;
  execution_inputs ← lift (ExecutionInputsFromBuffers executable input_buffers);
  timer ← GpuTimer_Create_on stream;
  execution_output ← Execute executable execution_inputs;
  timer_duration ← timer_GetElapsedDuration timer;
  mret (execution_output, timer_duration).

(** The size check and the copy that end [GenerateAndProfileExecutable]. *)
Definition check_and_copy (stream : Stream) (output_buffer : DeviceMemoryBase)
    (execution_output : ExecutionOutput) : M unit :=
  let result := ConsumeResult execution_output in
  TF_RET_CHECK (bool_decide (size output_buffer = size (root_buffer result)))
    "output_buffer.size() == result.root_buffer().size()";;
  stream_ThenMemcpy stream output_buffer (root_buffer result)
    (size (root_buffer result)).

Definition ClearCompilationCache : M unit := fun w =>
  (Value tt, {| executable_cache := ∅; trace := trace w |}).

End AutotunerCompileUtil.

(** ** Reading the trace *)

Definition is_module_extractor (e : Event) : bool :=
  match e with EvModuleExtractor => true | _ => false end.

Definition is_compile_event (e : Event) : bool :=
  match e with
  | EvModuleExtractor | EvCompilerRunBackend _ => true
  | _ => false
  end.

Definition is_memcpy (e : Event) : bool :=
  match e with EvThenMemcpy _ _ _ _ => true | _ => false end.

(** How often the module extractor, and with it [CompileNoCache], was
    called. *)
Definition extractor_calls (t : list Event) : nat :=
  length (filter (fun e => is_module_extractor e = true) t).

(** What binding gives for one parameter and its buffer. *)
Definition bound_input (p : HloInstruction) (b : DeviceMemoryBase)
  : ExecutionInput :=
  {| input_shape := shape p; root_input_buffer := Some (Unowned b) |}.

Abbreviation no_memcpy evs := (Forall (fun e => is_memcpy e = false) evs).

(** ** A sample setting

    One executable with one 4-byte parameter, whose runs produce a 4-byte
    output; collaborators that always succeed; and extractors that succeed,
    that reject the candidate as uncompilable, and that fail outright. *)

Module Sample.

(** A candidate with one optional field; as in a protocol buffer, a
    field that is not set and a field set to its default serialise alike. *)
Definition AutotuneResult : Type := option string.
Definition SerializeAsString (r : AutotuneResult) : string :=
  match r with Some s => s | None => "" end.

(** A hash state that records what was combined into it. *)
Definition recording_hash : AbslHashable (list string) string :=
  fun h s => s :: h.
Definition kUncompilableFusion : string := "__uncompilable_fusion".

Definition f32_1 : Shape := {| element_type := "f32"; dimensions := [1%Z] |}.

Definition options : DebugOptions :=
  {| xla_dump_to := "/tmp/dump";
     xla_gpu_dump_autotune_results_to := "results.pb";
     xla_gpu_load_autotune_results_from := "results.pb";
     xla_gpu_dump_llvmir := true;
     xla_gpu_force_compilation_parallelism := 8%Z;
     xla_gpu_enable_xla_runtime_executable := true;
     other_options := [("xla_gpu_autotune_level", "4")] |}.

Definition original : HloComputation :=
  {| parent := {| module_name := "main";
                  config := {| debug_options := options;
                               seed := 42%Z; replica_count := 1%Z |} |} |}.

Definition extracted : HloModule :=
  {| module_name := "extracted";
     config := {| debug_options := options; seed := 0%Z; replica_count := 1%Z |} |}.

Definition identity_executable : Executable :=
  {| executable_name := "identity";
     parameter_instructions := [{| shape := f32_1 |}] |}.

Definition produced : DeviceMemoryBase := {| opaque := 4096%Z; size := 4%Z |}.

Definition env : Collaborators :=
  {| compiler_RunBackend := fun _ _ => OkValue identity_executable;
     ExecuteAsyncOnStreamWrapper := fun _ _ _ _ =>
       OkValue {| root_buffer := produced |};
     BlockHostUntilDone := fun _ _ => OkStatus;
     GpuTimer_Create := fun _ _ => OkValue 1%Z;
     GetElapsedDuration := fun _ _ => OkValue 1500%Z |}.

Definition util : AutotunerCompileUtil :=
  {| stream_executor_device_ordinal := 0%Z; stream_ := 7%Z;
     allocator_ := 1%Z |}.

Definition extractor : ExtractModuleFn := fun _ => OkValue extracted.

Definition uncompilable : ExtractModuleFn := fun _ =>
  NotOk {| error_code := Cancelled;
           message := "split-k does not divide";
           payloads := [(kUncompilableFusion, "")] |}.

Definition broken : ExtractModuleFn := fun _ =>
  NotOk {| error_code := InvalidArgument;
           message := "malformed fusion";
           payloads := [] |}.

Definition cache_key : AutotuneCacheKey :=
  {| model_str := "sm_80"; hlo_canonical := "fusion" |}.

Definition candidate : AutotuneResult := Some "split_k=2".

Definition input : DeviceMemoryBase := {| opaque := 1024%Z; size := 4%Z |}.
Definition output : DeviceMemoryBase := {| opaque := 2048%Z; size := 4%Z |}.
Definition short_output : DeviceMemoryBase := {| opaque := 2048%Z; size := 2%Z |}.

Definition cold : World := {| executable_cache := ∅; trace := [] |}.

Definition Compile (extractor : ExtractModuleFn) : M (option Executable) :=
  Compile SerializeAsString kUncompilableFusion env original candidate
    cache_key extractor.

Definition measure (output_buffer : DeviceMemoryBase)
    (extractor : ExtractModuleFn) : M (option Duration) :=
  GenerateAndProfileExecutable SerializeAsString kUncompilableFusion env util
    original candidate cache_key 7%Z [input] output_buffer extractor.

End Sample.

(** ** Reading the trace of a profiling run *)

(** The calls of a profiling run that goes through, once the executable is
    at hand. *)
Definition profiling_calls (this : AutotunerCompileUtil) (stream : Stream)
    (output_buffer : DeviceMemoryBase) (executable : Executable)
    (inputs : list ExecutionInput) (timer : GpuTimer)
    (produced : DeviceMemoryBase) : list Event :=
  [EvExecuteAsyncOnStreamWrapper executable (service_run_options this) inputs;
   EvBlockHostUntilDone stream;
   EvGpuTimerCreate stream;
   EvExecuteAsyncOnStreamWrapper executable (service_run_options this) inputs;
   EvGetElapsedDuration timer;
   EvThenMemcpy stream output_buffer produced (size produced)].

(** An execution runs under the utility's own device, stream and allocator
    with the exclusive lock; the drain, the timer and the copy go to the
    stream [given] to [GenerateAndProfileExecutable]. *)
Definition on_streams (this : AutotunerCompileUtil) (given : Stream)
    (e : Event) : Prop :=
  match e with
  | EvExecuteAsyncOnStreamWrapper _ o _ =>
      device_ordinal o = stream_executor_device_ordinal this /\
      stream o = stream_ this /\
      allocator o = allocator_ this /\
      requires_exclusive_lock_on_gpu o = true
  | EvBlockHostUntilDone s | EvGpuTimerCreate s | EvThenMemcpy s _ _ _ =>
      s = given
  | EvModuleExtractor | EvCompilerRunBackend _ | EvGetElapsedDuration _ => True
  end.

(** The status a collaborator of [env] returns to a call made after the
    calls [h].  [ThenMemcpy] returns no status and the extractor is not one
    of [env]: they count as answered. *)
Definition answered (env : Collaborators) (h : list Event) (e : Event)
  : Status :=
  match e with
  | EvCompilerRunBackend m => status (compiler_RunBackend env h m)
  | EvExecuteAsyncOnStreamWrapper executable o arguments =>
      status (ExecuteAsyncOnStreamWrapper env h executable o arguments)
  | EvBlockHostUntilDone s => BlockHostUntilDone env h s
  | EvGpuTimerCreate s => status (GpuTimer_Create env h s)
  | EvGetElapsedDuration t => status (GetElapsedDuration env h t)
  | EvModuleExtractor | EvThenMemcpy _ _ _ _ => OkStatus
  end.

(** The world after further calls. *)
Definition after (w : World) (evs : list Event) : World :=
  {| executable_cache := executable_cache w; trace := trace w ++ evs |}.

(** A backend that is out of resources once, then succeeds, and an
    executable with no parameter. *)
Module Scenario.

Definition exhausted : Error :=
  {| error_code := ResourceExhausted;
     message := "out of shared memory";
     payloads := [] |}.

Definition flaky : Collaborators :=
  {| compiler_RunBackend := fun h _ =>
       match h with
       | [EvModuleExtractor] => NotOk exhausted
       | _ => OkValue Sample.identity_executable
       end;
     ExecuteAsyncOnStreamWrapper := ExecuteAsyncOnStreamWrapper Sample.env;
     BlockHostUntilDone := BlockHostUntilDone Sample.env;
     GpuTimer_Create := GpuTimer_Create Sample.env;
     GetElapsedDuration := GetElapsedDuration Sample.env |}.

(** Collaborators whose warm-up run succeeds and whose drain fails. *)
Definition stalls : Collaborators :=
  {| compiler_RunBackend := compiler_RunBackend Sample.env;
     ExecuteAsyncOnStreamWrapper := ExecuteAsyncOnStreamWrapper Sample.env;
     BlockHostUntilDone := fun _ _ =>
       NotOkStatus {| error_code := Internal;
                      message := "stream is in a bad state";
                      payloads := [] |};
     GpuTimer_Create := GpuTimer_Create Sample.env;
     GetElapsedDuration := GetElapsedDuration Sample.env |}.

Definition other_key : AutotuneCacheKey :=
  {| model_str := "sm_90"; hlo_canonical := "fusion" |}.

End Scenario.

(** ** The compilation key: equality and hash *)

Section KeyFacts.
Context {AutotuneResult : Type}.
Context (SerializeAsString : AutotuneResult -> string).
Implicit Types k : CompilationKey AutotuneResult.

Lemma operator_eq_spec k1 k2 :
  operator_eq SerializeAsString k1 k2 = true <->
  autotune_key k1 = autotune_key k2 /\
  SerializeAsString (res k1) = SerializeAsString (res k2).
Proof.
  unfold operator_eq.
  rewrite andb_true_iff, !bool_decide_eq_true. tauto.
Qed.

Lemma operator_eq_slot k1 k2 :
  operator_eq SerializeAsString k1 k2 = true <->
  slot SerializeAsString k1 = slot SerializeAsString k2.
Proof.
  rewrite operator_eq_spec. unfold slot. split.
  - intros [-> ->]. reflexivity.
  - intros [= -> ->]. done.
Qed.

(** C1. Two compilation keys built from identities [f1], [f2] and
    candidates [a], [b] compare equal exactly when the identities are equal
    and the candidates serialise to the same bytes; keys that compare equal
    extend every hash state in the same way, the hash being the combination
    of the identity and the serialised candidate. *)
Theorem CompilationKey_identity {H} `{AbslHashable H string}
    (f1 f2 : AutotuneCacheKey) (a b : AutotuneResult) :
  let k1 := {| autotune_key := f1; res := a |} in
  let k2 := {| autotune_key := f2; res := b |} in
  (operator_eq SerializeAsString k1 k2 = true <->
   f1 = f2 /\ SerializeAsString a = SerializeAsString b) /\
  (forall h : H,
     CompilationKey_AbslHashValue SerializeAsString h k1 =
     AbslHashValue (AbslHashValue h f1) (SerializeAsString a)) /\
  (operator_eq SerializeAsString k1 k2 = true ->
   forall h : H,
     CompilationKey_AbslHashValue SerializeAsString h k1 =
     CompilationKey_AbslHashValue SerializeAsString h k2).
Proof.
  intros k1 k2. split; [apply operator_eq_spec|]. split; [done|].
  intros [Hf Hs]%operator_eq_spec h. simpl in Hf, Hs.
  unfold CompilationKey_AbslHashValue, combine2. simpl.
  by rewrite Hf, Hs.
Qed.

End KeyFacts.

(** ** Binding buffers to parameters *)

Lemma set_back_emplace_back inputs s b :
  set_back (emplace_back inputs s) b =
  inputs ++ [{| input_shape := s; root_input_buffer := Some b |}].
Proof.
  unfold set_back, emplace_back.
  rewrite reverse_snoc, reverse_involutive. reflexivity.
Qed.

Lemma bind_parameter_loop params buffers k : forall i acc,
  i + k <= length params -> i + k <= length buffers ->
  foldl (bind_parameter params buffers) (Value acc) (seq i k) =
  Value (acc ++ zip_with bound_input (take k (drop i params))
                                     (take k (drop i buffers))).
Proof.
  induction k as [|k IH]; intros i acc Hp Hb; simpl.
  - by rewrite app_nil_r.
  - destruct (lookup_lt_is_Some_2 params i) as [p Hpi]; [lia|].
    destruct (lookup_lt_is_Some_2 buffers i) as [b Hbi]; [lia|].
    rewrite Hpi, Hbi, set_back_emplace_back.
    rewrite IH by lia.
    rewrite (drop_S _ _ _ Hpi), (drop_S _ _ _ Hbi). simpl.
    by rewrite <- app_assoc.
Qed.

Lemma ExecutionInputsFromBuffers_eq executable buffers :
  length (parameter_instructions executable) = length buffers ->
  ExecutionInputsFromBuffers executable buffers =
  Value (zip_with bound_input (parameter_instructions executable) buffers).
Proof.
  intros Hlen. unfold ExecutionInputsFromBuffers.
  rewrite decide_True by done.
  rewrite bind_parameter_loop by (simpl; lia). simpl.
  rewrite !drop_0, Hlen, firstn_all, <- Hlen, firstn_all. reflexivity.
Qed.

(** C9. When there are as many buffers as declared parameters, binding
    returns one input per parameter, and the input at each index is built
    from the shape of the parameter at that index and holds, unowned, the
    buffer at that index: the failed check and the out-of-range access are
    not reached.  When the numbers differ, the check fails and the process
    dies. *)
Theorem ExecutionInputsFromBuffers_binds (executable : Executable)
    (buffers : list DeviceMemoryBase) :
  (length (parameter_instructions executable) = length buffers ->
   exists inputs : list ExecutionInput,
     ExecutionInputsFromBuffers executable buffers = Value inputs /\
     length inputs = length buffers /\
     forall (i : nat) p b,
       parameter_instructions executable !! i = Some p ->
       buffers !! i = Some b ->
       inputs !! i = Some (bound_input p b)) /\
  (length (parameter_instructions executable) <> length buffers ->
   exists what, ExecutionInputsFromBuffers executable buffers = Crashed what).
Proof.
  split.
  - intros Hlen. eexists. split; [by apply ExecutionInputsFromBuffers_eq|].
    split.
    + rewrite length_zip_with. lia.
    + intros i p b Hp Hb. rewrite lookup_zip_with, Hp. simpl. by rewrite Hb.
  - intros Hne. unfold ExecutionInputsFromBuffers.
    rewrite decide_False by done. eauto.
Qed.

(** ** Stepping through a computation *)

Lemma bind_run {A B} (m : M A) (f : A -> M B) w :
  (m ≫= f) w =
  match m w with
  | (Value a, w') => f a w'
  | (Failed e, w') => (Failed e, w')
  | (Crashed what, w') => (Crashed what, w')
  end.
Proof. reflexivity. Qed.

Lemma call_run e (w : World) :
  call e w =
  (Value tt, {| executable_cache := executable_cache w;
                trace := trace w ++ [e] |}).
Proof. reflexivity. Qed.

Lemma history_run (w : World) : history w = (Value (trace w), w).
Proof. reflexivity. Qed.

Lemma ret_run {A} (a : A) (w : World) : (mret a : M A) w = (Value a, w).
Proof. reflexivity. Qed.

Ltac run :=
  repeat (rewrite ?bind_run, ?history_run, ?call_run, ?ret_run; simpl).

(** Closes an equivalence between an outcome and the collaborators'
    answers once the answers are known; [Hc] is the answer at hand. *)
Ltac settle_outcome Hc :=
  repeat match goal with
         | H : _ \/ _ |- _ => destruct H
         | H : _ /\ _ |- _ => destruct H
         | H : ex _ |- _ => destruct H
         end;
  simplify_eq; try rewrite Hc in *; simpl in *; simplify_eq;
  try solve [ eauto 6 | left; eauto | right; eauto 6 ].

Section Facts.
Context {AutotuneResult : Type}.
Context (SerializeAsString : AutotuneResult -> string).
Context (kUncompilableFusion : string).
Context (env : Collaborators).
Context (this : AutotunerCompileUtil).

#[local] Abbreviation RunBackend := (RunBackend env).
#[local] Abbreviation CompileNoCache := (CompileNoCache kUncompilableFusion env).
#[local] Abbreviation Compile := (Compile SerializeAsString kUncompilableFusion env).
#[local] Abbreviation GenerateAndProfileExecutable :=
  (GenerateAndProfileExecutable SerializeAsString kUncompilableFusion env this).

(** *** The backend invocation *)

Lemma RunBackend_run original_computation module w :
  RunBackend original_computation module w =
  let m := set_debug_options module (backend_debug_options original_computation) in
  (match compiler_RunBackend env (trace w) m with
   | OkValue executable => Value (Some executable)
   | NotOk e =>
       if decide (error_code e = ResourceExhausted) then Value None
       else Failed e
   end,
   {| executable_cache := executable_cache w;
      trace := trace w ++ [EvCompilerRunBackend m] |}).
Proof.
  unfold RunBackend. run.
  destruct (compiler_RunBackend env _ _) as [x|e]; simpl.
  - reflexivity.
  - unfold kResourceExhausted.
    destruct (decide (error_code e = ResourceExhausted)) as [Heq|Hne].
    + rewrite decide_True by (by rewrite Heq). reflexivity.
    + rewrite decide_False by congruence. reflexivity.
Qed.

(** C8. The backend compiler is called once, with the extracted module
    whose debug options have been replaced by those of the original
    computation's module with six fields overwritten: no dump directory, no
    LLVM IR dump, no file to dump autotune results to, no file to load them
    from, compilation parallelism 1, and the XLA runtime executable off.
    All other debug options are those of the original module, and the rest
    of the extracted module is untouched.  The outcome of [RunBackend] is
    computed from the compiler's answer on that module. *)
Theorem RunBackend_debug_options (original_computation : HloComputation)
    (module : HloModule) (w : World) :
  exists m : HloModule,
    trace (RunBackend original_computation module w).2 =
      trace w ++ [EvCompilerRunBackend m] /\
    (RunBackend original_computation module w).1 =
      match compiler_RunBackend env (trace w) m with
      | OkValue executable => Value (Some executable)
      | NotOk e =>
          if decide (error_code e = ResourceExhausted) then Value None
          else Failed e
      end /\
    module_name m = module_name module /\
    seed (config m) = seed (config module) /\
    replica_count (config m) = replica_count (config module) /\
    xla_dump_to (debug_options (config m)) = "" /\
    xla_gpu_dump_llvmir (debug_options (config m)) = false /\
    xla_gpu_dump_autotune_results_to (debug_options (config m)) = "" /\
    xla_gpu_load_autotune_results_from (debug_options (config m)) = "" /\
    xla_gpu_force_compilation_parallelism (debug_options (config m)) = 1%Z /\
    xla_gpu_enable_xla_runtime_executable (debug_options (config m)) = false /\
    other_options (debug_options (config m)) =
      other_options (debug_options (config (parent original_computation))).
Proof.
  rewrite RunBackend_run. simpl.
  eexists. split; [reflexivity|]. split; [reflexivity|].
  repeat split.
Qed.

(** *** Compiling one candidate without the cache *)

Lemma CompileNoCache_run original_computation module_extractor w :
  CompileNoCache original_computation module_extractor w =
  let w' := {| executable_cache := executable_cache w;
               trace := trace w ++ [EvModuleExtractor] |} in
  match module_extractor (trace w) with
  | NotOk e =>
      if has_value (find_payload (payloads e) kUncompilableFusion)
      then (Value None, w') else (Failed e, w')
  | OkValue module => RunBackend original_computation module w'
  end.
Proof.
  unfold CompileNoCache. run.
  destruct (module_extractor (trace w)) as [module|e]; simpl; [done|].
  by destruct (has_value _).
Qed.

(** C3. [CompileNoCache] returns a null executable with an OK status in
    exactly two cases: the module extractor fails with a status that
    carries the uncompilable-fusion payload, or the extractor succeeds and
    the backend compiler fails with the resource-exhausted code.  It returns
    an error exactly when the extractor fails without that payload, or the
    extractor succeeds and the backend fails with any other code, and the
    error is the one the collaborator gave.  It returns an executable
    exactly when both succeed, and it never dies. *)
Theorem CompileNoCache_outcomes (original_computation : HloComputation)
    (module_extractor : ExtractModuleFn) (w : World) :
  let extracted := module_extractor (trace w) in
  let tagged :=
    has_value (GetPayload (status extracted) kUncompilableFusion) in
  let compiled module :=
    compiler_RunBackend env (trace w ++ [EvModuleExtractor])
      (set_debug_options module (backend_debug_options original_computation)) in
  let outcome :=
    (CompileNoCache original_computation module_extractor w).1 in
  (outcome = Value None <->
     tagged = true \/
     exists module, extracted = OkValue module /\
       code (status (compiled module)) = kResourceExhausted) /\
  (forall e, outcome = Failed e <->
     (extracted = NotOk e /\ tagged = false) \/
     exists module, extracted = OkValue module /\
       compiled module = NotOk e /\ error_code e <> ResourceExhausted) /\
  (forall executable, outcome = Value (Some executable) <->
     exists module, extracted = OkValue module /\
       compiled module = OkValue executable) /\
  (forall what, outcome <> Crashed what).
Proof.
  intros extracted tagged compiled outcome.
  subst outcome. rewrite CompileNoCache_run. simpl.
  subst tagged compiled. fold extracted.
  destruct extracted as [module|e] eqn:Hex; simpl.
  - rewrite RunBackend_run. simpl.
    destruct (compiler_RunBackend env _ _) as [x|e] eqn:Hc; simpl.
    + repeat split; intros; settle_outcome Hc.
    + unfold kResourceExhausted.
      destruct (decide (error_code e = ResourceExhausted)) as [Heq|Hne].
      * repeat split; intros; settle_outcome Hc.
        right. exists module. rewrite Hc. simpl. by rewrite Heq.
      * repeat split; intros; settle_outcome Hc.
  - destruct (has_value (find_payload (payloads e) kUncompilableFusion))
      eqn:Htag; simpl; repeat split; intros; settle_outcome Htag.
Qed.

(** *** The cache *)

Lemma RunBackend_cache original_computation module w :
  executable_cache (RunBackend original_computation module w).2 =
  executable_cache w.
Proof. by rewrite RunBackend_run. Qed.

Lemma CompileNoCache_cache original_computation module_extractor w :
  executable_cache (CompileNoCache original_computation module_extractor w).2 =
  executable_cache w.
Proof.
  rewrite CompileNoCache_run. simpl.
  destruct (module_extractor (trace w)) as [module|e].
  - by rewrite RunBackend_cache.
  - by destruct (has_value _).
Qed.

(** [CompileNoCache] calls the extractor once, and then the backend
    compiler at most once. *)
Lemma CompileNoCache_trace original_computation module_extractor w :
  exists evs,
    trace (CompileNoCache original_computation module_extractor w).2 =
      trace w ++ EvModuleExtractor :: evs /\
    (evs = [] \/ exists m, evs = [EvCompilerRunBackend m]).
Proof.
  rewrite CompileNoCache_run. simpl.
  destruct (module_extractor (trace w)) as [module|e].
  - rewrite RunBackend_run. simpl. eexists. rewrite <- app_assoc. simpl.
    split; [reflexivity|]. right. eauto.
  - exists []. by destruct (has_value _); simpl; split; auto.
Qed.

Lemma extractor_calls_app t1 t2 :
  extractor_calls (t1 ++ t2) = extractor_calls t1 + extractor_calls t2.
Proof. unfold extractor_calls. by rewrite filter_app, length_app. Qed.

Lemma Compile_hit hlo_computation res cache_key extractor w second :
  executable_cache w
    !! slot SerializeAsString {| autotune_key := cache_key; res := res |}
    = Some second ->
  Compile hlo_computation res cache_key extractor w = (Value second, w).
Proof.
  intros Hhit. unfold Compile, find.
  rewrite bind_run. cbv beta. rewrite Hhit. reflexivity.
Qed.

Lemma Compile_miss hlo_computation res cache_key extractor w :
  let key := {| autotune_key := cache_key; res := res |} in
  executable_cache w !! slot SerializeAsString key = None ->
  Compile hlo_computation res cache_key extractor w =
  match CompileNoCache hlo_computation extractor w with
  | (Value executable, w') =>
      (Value executable,
       {| executable_cache :=
            <[slot SerializeAsString key := executable]> (executable_cache w);
          trace := trace w' |})
  | (Failed e, w') => (Failed e, w')
  | (Crashed what, w') => (Crashed what, w')
  end.
Proof.
  intros key Hmiss. subst key. unfold Compile, find.
  rewrite bind_run. cbv beta. rewrite Hmiss, bind_run.
  pose proof (CompileNoCache_cache hlo_computation extractor w) as Hcache.
  destruct (CompileNoCache hlo_computation extractor w) as [[x|e|what] w'];
    try reflexivity.
  simpl in Hcache. unfold emplace. by rewrite Hcache, Hmiss.
Qed.

Lemma CompileNoCache_never_dies original_computation module_extractor w what :
  (CompileNoCache original_computation module_extractor w).1 <> Crashed what.
Proof.
  rewrite CompileNoCache_run. simpl.
  destruct (module_extractor (trace w)) as [module|e].
  - rewrite RunBackend_run. simpl.
    destruct (compiler_RunBackend env _ _) as [x|e]; [done|].
    by destruct (decide _).
  - by destruct (has_value _).
Qed.

(** [Compile] calls nobody but the extractor and the backend compiler. *)
Lemma Compile_trace hlo_computation res cache_key extractor w :
  exists evs,
    trace (Compile hlo_computation res cache_key extractor w).2 =
      trace w ++ evs /\
    Forall (fun e => is_compile_event e = true) evs.
Proof.
  destruct (executable_cache w
              !! slot SerializeAsString
                   {| autotune_key := cache_key; res := res |})
    as [second|] eqn:Hfind.
  - rewrite (Compile_hit _ _ _ _ _ _ Hfind). exists []. simpl.
    by rewrite app_nil_r.
  - rewrite (Compile_miss _ _ _ _ _ Hfind).
    destruct (CompileNoCache_trace hlo_computation extractor w)
      as (evs & Htrace & Hevs).
    exists (EvModuleExtractor :: evs).
    split.
    + by destruct (CompileNoCache hlo_computation extractor w) as [[x|e|what] w'].
    + constructor; [done|]. by destruct Hevs as [->|[m ->]]; repeat constructor.
Qed.

Lemma Compile_never_dies hlo_computation res cache_key extractor w what :
  (Compile hlo_computation res cache_key extractor w).1 <> Crashed what.
Proof.
  destruct (executable_cache w
              !! slot SerializeAsString
                   {| autotune_key := cache_key; res := res |})
    as [second|] eqn:Hfind.
  - by rewrite (Compile_hit _ _ _ _ _ _ Hfind).
  - rewrite (Compile_miss _ _ _ _ _ Hfind).
    pose proof (CompileNoCache_never_dies hlo_computation extractor w) as Hno.
    destruct (CompileNoCache hlo_computation extractor w) as [[x|e|what'] w'];
      [done|done|].
    by destruct (Hno what').
Qed.

(** [Compile] keeps what the cache holds, under every key. *)
Lemma Compile_keeps_entries hlo_computation res cache_key extractor w
    (s : AutotuneCacheKey * string) (held : option Executable) :
  executable_cache w !! s = Some held ->
  executable_cache (Compile hlo_computation res cache_key extractor w).2 !! s =
    Some held.
Proof.
  intros Hheld.
  destruct (executable_cache w
              !! slot SerializeAsString
                   {| autotune_key := cache_key; res := res |})
    as [second|] eqn:Hfind.
  - by rewrite (Compile_hit _ _ _ _ _ _ Hfind).
  - rewrite (Compile_miss _ _ _ _ _ Hfind).
    pose proof (CompileNoCache_cache hlo_computation extractor w) as Hcache.
    destruct (CompileNoCache hlo_computation extractor w) as [[x|e|what] w'];
      simpl in *; rewrite ?Hcache; try done.
    rewrite lookup_insert_ne; [done|]. intros <-. congruence.
Qed.

(** C2. On a miss, [Compile] calls the extractor, and with it
    [CompileNoCache], exactly once, and its outcome is that of
    [CompileNoCache].  When the outcome is a value, an executable or the null
    marker, it is stored under the key.  From then on, in any world whose
    cache holds that value under the key, every call of [Compile], under
    any key, leaves the value there, and every call whose key compares equal
    returns that value and leaves the world as it found it: it calls
    neither its extractor nor the backend, whatever they are.  So the value
    is returned by every later call with an equal key, whatever other keys
    are compiled in between. *)
Theorem Compile_idempotent (hlo_computation : HloComputation)
    (res : AutotuneResult) (cache_key : AutotuneCacheKey)
    (extractor : ExtractModuleFn) (w : World) :
  let key := {| autotune_key := cache_key; res := res |} in
  let first := Compile hlo_computation res cache_key extractor w in
  executable_cache w !! slot SerializeAsString key = None ->
  extractor_calls (trace first.2) = S (extractor_calls (trace w)) /\
  first.1 = (CompileNoCache hlo_computation extractor w).1 /\
  forall executable : option Executable,
    first.1 = Value executable ->
    executable_cache first.2 !! slot SerializeAsString key = Some executable /\
    forall w2 hlo_computation' res' cache_key' extractor',
      executable_cache w2 !! slot SerializeAsString key = Some executable ->
      let later :=
        Compile hlo_computation' res' cache_key' extractor' w2 in
      executable_cache later.2 !! slot SerializeAsString key =
        Some executable /\
      (operator_eq SerializeAsString
         {| autotune_key := cache_key'; res := res' |} key = true ->
       later = (Value executable, w2)).
Proof.
  intros key first Hmiss. subst first.
  rewrite (Compile_miss _ _ _ _ _ Hmiss). fold key.
  destruct (CompileNoCache_trace hlo_computation extractor w)
    as (evs & Htrace & Hevs).
  assert (extractor_calls (EvModuleExtractor :: evs) = 1) as Hone.
  { by destruct Hevs as [->|[m ->]]. }
  destruct (CompileNoCache hlo_computation extractor w) as [[x|e|what] w'];
    simpl in *; rewrite Htrace, extractor_calls_app, Hone.
  - split; [lia|]. split; [done|].
    intros executable [= <-]. split; [apply lookup_insert_eq|].
    intros w2 hlo' res' cache_key' extractor' Hheld.
    split; [by apply Compile_keeps_entries|].
    intros Heq%operator_eq_slot. apply Compile_hit. by rewrite Heq.
  - split; [lia|]. done.
  - split; [lia|]. done.
Qed.

(** C7. When [Compile] returns an error, the cache is as it was before the
    call and holds nothing under the key: the next call with that key misses
    again. *)
Theorem Compile_failure_keeps_cache (hlo_computation : HloComputation)
    (res : AutotuneResult) (cache_key : AutotuneCacheKey)
    (extractor : ExtractModuleFn) (w : World) (e : Error) :
  let key := {| autotune_key := cache_key; res := res |} in
  let attempt := Compile hlo_computation res cache_key extractor w in
  attempt.1 = Failed e ->
  executable_cache attempt.2 = executable_cache w /\
  executable_cache attempt.2 !! slot SerializeAsString key = None.
Proof.
  intros key attempt. subst attempt.
  destruct (executable_cache w !! slot SerializeAsString key)
    as [second|] eqn:Hfind.
  - by rewrite (Compile_hit _ _ _ _ _ _ Hfind).
  - rewrite (Compile_miss _ _ _ _ _ Hfind).
    pose proof (CompileNoCache_cache hlo_computation extractor w) as Hcache.
    destruct (CompileNoCache hlo_computation extractor w) as [[x|e'|what] w'];
      simpl in *; intros [= <-].
    by rewrite Hcache.
Qed.

(** *** Profiling *)

Lemma check_and_copy_run stream output_buffer execution_output w :
  check_and_copy stream output_buffer execution_output w =
  if bool_decide (size output_buffer = size (root_buffer execution_output))
  then (Value tt,
        {| executable_cache := executable_cache w;
           trace := trace w ++
             [EvThenMemcpy stream output_buffer (root_buffer execution_output)
                (size (root_buffer execution_output))] |})
  else (Failed {| error_code := Internal;
                  message := "RET_CHECK failure " +:+
                    "output_buffer.size() == result.root_buffer().size()";
                  payloads := [] |}, w).
Proof.
  unfold check_and_copy, ConsumeResult, TF_RET_CHECK, stream_ThenMemcpy.
  rewrite bind_run. by destruct (bool_decide _).
Qed.

(** [GenerateAndProfileExecutable] is [Compile], then the two runs, then
    the check and the copy. *)
Lemma GenerateAndProfileExecutable_run hlo_computation config cache_key
    stream input_buffers output_buffer extractor w :
  GenerateAndProfileExecutable hlo_computation config cache_key stream
    input_buffers output_buffer extractor w =
  match Compile hlo_computation config cache_key extractor w with
  | (Value None, w1) => (Value None, w1)
  | (Value (Some executable), w1) =>
      match warmup_and_timed_run env this executable stream input_buffers w1 with
      | (Value (execution_output, timer_duration), w2) =>
          match check_and_copy stream output_buffer execution_output w2 with
          | (Value _, w3) => (Value (Some timer_duration), w3)
          | (Failed e, w3) => (Failed e, w3)
          | (Crashed what, w3) => (Crashed what, w3)
          end
      | (Failed e, w2) => (Failed e, w2)
      | (Crashed what, w2) => (Crashed what, w2)
      end
  | (Failed e, w1) => (Failed e, w1)
  | (Crashed what, w1) => (Crashed what, w1)
  end.
Proof.
  unfold GenerateAndProfileExecutable. rewrite bind_run.
  destruct (Compile _ _ _ _ _) as [[[executable|]|e|what] w1]; try reflexivity.
  unfold warmup_and_timed_run, check_and_copy, ConsumeResult, TF_RET_CHECK,
    stream_ThenMemcpy, timer_GetElapsedDuration, GpuTimer_Create_on,
    stream_BlockHostUntilDone, Execute, of_StatusOr, of_Status, lift.
  run.
  destruct (ExecutionInputsFromBuffers _ _) as [inputs|?|?]; try reflexivity.
  run.
  destruct (ExecuteAsyncOnStreamWrapper _ _ _ _ _); try reflexivity. run.
  destruct (BlockHostUntilDone _ _ _); try reflexivity. run.
  destruct (GpuTimer_Create _ _ _); try reflexivity. run.
  destruct (ExecuteAsyncOnStreamWrapper _ _ _ _ _); try reflexivity. run.
  destruct (GetElapsedDuration _ _ _); try reflexivity. run.
  destruct (bool_decide _); reflexivity.
Qed.

Lemma compile_events_no_memcpy evs :
  Forall (fun e => is_compile_event e = true) evs -> no_memcpy evs.
Proof. intros Hevs. eapply Forall_impl; [exact Hevs|]. by intros []. Qed.

(** Closes a branch of [warmup_and_timed_run] that ends early. *)
Ltac early_exit :=
  simpl; split; [done|]; eexists;
  split; [by rewrite <- ?app_assoc|];
  split; [by repeat constructor|]; intros; simplify_eq.

(** The two runs leave the cache alone and never copy; when they return,
    they have made exactly five calls. *)
Lemma warmup_and_timed_run_spec executable stream input_buffers w :
  let r := warmup_and_timed_run env this executable stream input_buffers w in
  executable_cache r.2 = executable_cache w /\
  exists evs,
    trace r.2 = trace w ++ evs /\
    no_memcpy evs /\
    forall execution_output timer_duration,
      r.1 = Value (execution_output, timer_duration) ->
      exists inputs timer,
        ExecutionInputsFromBuffers executable input_buffers = Value inputs /\
        evs =
          [EvExecuteAsyncOnStreamWrapper executable
             (service_run_options this) inputs;
           EvBlockHostUntilDone stream;
           EvGpuTimerCreate stream;
           EvExecuteAsyncOnStreamWrapper executable
             (service_run_options this) inputs;
           EvGetElapsedDuration timer].
Proof.
  unfold warmup_and_timed_run, timer_GetElapsedDuration, GpuTimer_Create_on,
    stream_BlockHostUntilDone, Execute, of_StatusOr, of_Status, lift.
  run.
  destruct (ExecutionInputsFromBuffers _ _) as [inputs|?|?];
    [|simpl; split; [done|]; exists []; rewrite app_nil_r; by repeat split..].
  run.
  destruct (ExecuteAsyncOnStreamWrapper _ _ _ _ _); [|early_exit]. run.
  destruct (BlockHostUntilDone _ _ _); [|early_exit]. run.
  destruct (GpuTimer_Create _ _ _) as [timer|]; [|early_exit]. run.
  destruct (ExecuteAsyncOnStreamWrapper _ _ _ _ _); [|early_exit]. run.
  destruct (GetElapsedDuration _ _ _); [|early_exit]. run.
  split; [done|]. eexists. split; [by rewrite <- !app_assoc|].
  split; [by repeat constructor|]. intros ? ? [= <- <-]. eauto.
Qed.

(** C4. When [GenerateAndProfileExecutable] returns a duration, the calls
    it has made after compiling or fetching the executable are, in this
    order: the warm-up execution, [BlockHostUntilDone] on the stream, the
    creation of the GPU timer (which starts it), the timed execution of the
    same executable on the same inputs, the reading of the elapsed duration
    (which stops the timer), and the copy into the output buffer.  Before
    them it has called only the extractor and the backend compiler. *)
Theorem warmup_precedes_timed_run (hlo_computation : HloComputation)
    (config : AutotuneResult) (cache_key : AutotuneCacheKey)
    (stream : Stream) (input_buffers : list DeviceMemoryBase)
    (output_buffer : DeviceMemoryBase) (extractor : ExtractModuleFn)
    (w w' : World) (d : Duration) :
  GenerateAndProfileExecutable hlo_computation config cache_key stream
    input_buffers output_buffer extractor w = (Value (Some d), w') ->
  exists compile_evs executable inputs timer produced,
    Forall (fun e => is_compile_event e = true) compile_evs /\
    trace w' = trace w ++ compile_evs ++
      [EvExecuteAsyncOnStreamWrapper executable
         (service_run_options this) inputs;
       EvBlockHostUntilDone stream;
       EvGpuTimerCreate stream;
       EvExecuteAsyncOnStreamWrapper executable
         (service_run_options this) inputs;
       EvGetElapsedDuration timer;
       EvThenMemcpy stream output_buffer produced (size produced)].
Proof.
  rewrite GenerateAndProfileExecutable_run.
  destruct (Compile_trace hlo_computation config cache_key extractor w)
    as (compile_evs & Hcompile & Hevs).
  destruct (Compile _ _ _ _ _) as [[[executable|]|e|what] w1]; try done.
  destruct (warmup_and_timed_run_spec executable stream input_buffers w1)
    as (_ & evs & Hruns & _ & Hfive).
  destruct (warmup_and_timed_run _ _ _ _ _ _) as [[[out d']|e|what] w2];
    try done.
  destruct (Hfive out d' eq_refl) as (inputs & timer & _ & ->).
  rewrite check_and_copy_run.
  destruct (bool_decide _); [|done]. intros [= <- <-].
  exists compile_evs, executable, inputs, timer, (root_buffer out).
  split; [done|]. simpl in *.
  rewrite Hruns, Hcompile, <- !app_assoc. reflexivity.
Qed.

(** C5. When [Compile] yields the null executable,
    [GenerateAndProfileExecutable] returns the empty optional, not an error,
    in the world [Compile] left: the only calls made are those of
    [Compile], to the extractor and the backend compiler, and none is an
    execution, a timer call or a copy. *)
Theorem no_artifact_no_measurement (hlo_computation : HloComputation)
    (config : AutotuneResult) (cache_key : AutotuneCacheKey)
    (stream : Stream) (input_buffers : list DeviceMemoryBase)
    (output_buffer : DeviceMemoryBase) (extractor : ExtractModuleFn)
    (w w1 : World) :
  Compile hlo_computation config cache_key extractor w = (Value None, w1) ->
  GenerateAndProfileExecutable hlo_computation config cache_key stream
    input_buffers output_buffer extractor w = (Value None, w1) /\
  exists evs,
    trace w1 = trace w ++ evs /\
    Forall (fun e => is_compile_event e = true) evs.
Proof.
  intros Hcompile. rewrite GenerateAndProfileExecutable_run, Hcompile.
  split; [done|].
  pose proof (Compile_trace hlo_computation config cache_key extractor w)
    as Htrace.
  by rewrite Hcompile in Htrace.
Qed.

(** C6. Suppose the executable was obtained and the warm-up and timed
    runs went through, the timed run producing an output.  If the size of
    the output's root buffer differs from the size of the caller's output
    buffer, [GenerateAndProfileExecutable] returns an internal error in the
    world the timed run left, in which no copy has been made.  If the sizes
    agree, it copies the root buffer, over its whole size, into the caller's
    buffer and returns the measured duration. *)
Theorem output_size_check (hlo_computation : HloComputation)
    (config : AutotuneResult) (cache_key : AutotuneCacheKey)
    (stream : Stream) (input_buffers : list DeviceMemoryBase)
    (output_buffer : DeviceMemoryBase) (extractor : ExtractModuleFn)
    (w w1 w2 : World) (executable : Executable)
    (execution_output : ExecutionOutput) (timer_duration : Duration) :
  Compile hlo_computation config cache_key extractor w =
    (Value (Some executable), w1) ->
  warmup_and_timed_run env this executable stream input_buffers w1 =
    (Value (execution_output, timer_duration), w2) ->
  let produced := root_buffer (ConsumeResult execution_output) in
  let measured :=
    GenerateAndProfileExecutable hlo_computation config cache_key stream
      input_buffers output_buffer extractor w in
  (size output_buffer <> size produced ->
   (exists e, measured = (Failed e, w2) /\ error_code e = Internal) /\
   exists evs, trace w2 = trace w ++ evs /\ no_memcpy evs) /\
  (size output_buffer = size produced ->
   measured =
     (Value (Some timer_duration),
      {| executable_cache := executable_cache w2;
         trace := trace w2 ++
           [EvThenMemcpy stream output_buffer produced (size produced)] |})).
Proof.
  intros Hcompile Hruns produced measured. subst produced measured.
  rewrite GenerateAndProfileExecutable_run, Hcompile, Hruns.
  rewrite check_and_copy_run. unfold ConsumeResult. split.
  - intros Hne. rewrite bool_decide_eq_false_2 by done.
    split; [eauto|].
    destruct (Compile_trace hlo_computation config cache_key extractor w)
      as (compile_evs & Htrace1 & Hevs1).
    destruct (warmup_and_timed_run_spec executable stream input_buffers w1)
      as (_ & evs & Htrace2 & Hevs2 & _).
    rewrite Hcompile in Htrace1. rewrite Hruns in Htrace2. simpl in *.
    exists (compile_evs ++ evs). split.
    + by rewrite Htrace2, Htrace1, app_assoc.
    + apply Forall_app. split; [by apply compile_events_no_memcpy|done].
  - intros Heq. by rewrite bool_decide_eq_true_2.
Qed.

(** C10. Whatever [GenerateAndProfileExecutable] does, the calls it makes
    contain a copy only when it returns a duration; then the copy is the
    last call, it is the only one, it writes the caller's output buffer,
    and the size check has passed.  On every other outcome (an error from
    compilation, from either execution, from the drain, from the timer or
    from the size check, a failed check, or no measurement) no copy is
    made. *)
Theorem output_buffer_written_only_on_success
    (hlo_computation : HloComputation)
    (config : AutotuneResult) (cache_key : AutotuneCacheKey)
    (stream : Stream) (input_buffers : list DeviceMemoryBase)
    (output_buffer : DeviceMemoryBase) (extractor : ExtractModuleFn)
    (w : World) :
  let measured :=
    GenerateAndProfileExecutable hlo_computation config cache_key stream
      input_buffers output_buffer extractor w in
  exists evs,
    trace measured.2 = trace w ++ evs /\
    match measured.1 with
    | Value (Some _) =>
        exists before produced,
          evs = before ++
            [EvThenMemcpy stream output_buffer produced (size produced)] /\
          no_memcpy before /\
          size output_buffer = size produced
    | _ => no_memcpy evs
    end.
Proof.
  intros measured. subst measured.
  rewrite GenerateAndProfileExecutable_run.
  destruct (Compile_trace hlo_computation config cache_key extractor w)
    as (compile_evs & Htrace1 & Hevs1%compile_events_no_memcpy).
  destruct (Compile _ _ _ _ _) as [[[executable|]|e|what] w1]; simpl in *;
    try by (exists compile_evs).
  destruct (warmup_and_timed_run_spec executable stream input_buffers w1)
    as (_ & evs & Htrace2 & Hevs2 & _).
  assert (trace w ++ compile_evs ++ evs = (trace w ++ compile_evs) ++ evs)
    as Hassoc by apply app_assoc.
  assert (no_memcpy (compile_evs ++ evs)) as Hboth.
  { apply Forall_app. by split. }
  destruct (warmup_and_timed_run _ _ _ _ _ _) as [[[out d]|e|what] w2];
    simpl in *;
    try by (exists (compile_evs ++ evs); rewrite Htrace2, Htrace1).
  rewrite check_and_copy_run.
  destruct (bool_decide _) eqn:Hsize; simpl.
  - apply bool_decide_eq_true in Hsize.
    exists ((compile_evs ++ evs) ++
            [EvThenMemcpy stream output_buffer (root_buffer out)
               (size (root_buffer out))]).
    split; [by rewrite Htrace2, Htrace1, <- !app_assoc|]. eauto.
  - exists (compile_evs ++ evs). by rewrite Htrace2, Htrace1.
Qed.

(** *** More about the cache *)

(** X1. What [Compile] does to the cache: on a miss that ends in a value it
    adds that value under the key, and in every other case (a hit, an
    error) it leaves the cache as it was.  So an entry, once stored, is
    never replaced or removed by [Compile], and entries under other keys
    are not touched. *)
Theorem Compile_cache_effect (hlo_computation : HloComputation)
    (res : AutotuneResult) (cache_key : AutotuneCacheKey)
    (extractor : ExtractModuleFn) (w : World) :
  let key := {| autotune_key := cache_key; res := res |} in
  let r := Compile hlo_computation res cache_key extractor w in
  executable_cache r.2 =
    match executable_cache w !! slot SerializeAsString key, r.1 with
    | None, Value executable =>
        <[slot SerializeAsString key := executable]> (executable_cache w)
    | _, _ => executable_cache w
    end /\
  executable_cache w ⊆ executable_cache r.2.
Proof.
  intros key r. subst r.
  destruct (executable_cache w !! slot SerializeAsString key)
    as [second|] eqn:Hfind.
  - by rewrite (Compile_hit _ _ _ _ _ _ Hfind).
  - rewrite (Compile_miss _ _ _ _ _ Hfind). fold key.
    pose proof (CompileNoCache_cache hlo_computation extractor w) as Hcache.
    destruct (CompileNoCache hlo_computation extractor w) as [[x|e|what] w'];
      simpl in *; rewrite ?Hcache; split; try done.
    by apply insert_subseteq.
Qed.

(** X2. Whatever value [Compile] returns, an executable or the null
    marker, is what the cache holds under the key when it returns, whether
    the call hit or missed. *)
Theorem Compile_returns_what_it_stores (hlo_computation : HloComputation)
    (res : AutotuneResult) (cache_key : AutotuneCacheKey)
    (extractor : ExtractModuleFn) (w : World)
    (executable : option Executable) :
  (Compile hlo_computation res cache_key extractor w).1 = Value executable ->
  executable_cache (Compile hlo_computation res cache_key extractor w).2
    !! slot SerializeAsString {| autotune_key := cache_key; res := res |}
  = Some executable.
Proof.
  destruct (executable_cache w
              !! slot SerializeAsString
                   {| autotune_key := cache_key; res := res |})
    as [second|] eqn:Hfind.
  - rewrite (Compile_hit _ _ _ _ _ _ Hfind). by intros [= <-].
  - rewrite (Compile_miss _ _ _ _ _ Hfind).
    destruct (CompileNoCache hlo_computation extractor w) as [[x|e|what] w'];
      simpl; intros [= <-].
    apply lookup_insert_eq.
Qed.

(** X3. After [ClearCompilationCache] the cache is empty and no
    collaborator has been called; the next [Compile], whatever its key and
    whatever was cached before, misses: it calls the extractor once and
    ends as [CompileNoCache] does. *)
Theorem ClearCompilationCache_then_miss (hlo_computation : HloComputation)
    (res : AutotuneResult) (cache_key : AutotuneCacheKey)
    (extractor : ExtractModuleFn) (w : World) :
  let cleared := (ClearCompilationCache w).2 in
  let r := Compile hlo_computation res cache_key extractor cleared in
  executable_cache cleared = ∅ /\
  trace cleared = trace w /\
  r.1 = (CompileNoCache hlo_computation extractor cleared).1 /\
  extractor_calls (trace r.2) = S (extractor_calls (trace w)).
Proof.
  intros cleared r. subst r.
  assert (executable_cache cleared
            !! slot SerializeAsString
                 {| autotune_key := cache_key; res := res |} = None)
    as Hmiss by apply lookup_empty.
  rewrite (Compile_miss _ _ _ _ _ Hmiss).
  destruct (CompileNoCache_trace hlo_computation extractor cleared)
    as (evs & Htrace & Hevs).
  assert (extractor_calls (EvModuleExtractor :: evs) = 1) as Hone.
  { by destruct Hevs as [->|[m ->]]. }
  destruct (CompileNoCache hlo_computation extractor cleared)
    as [[x|e|what] w'];
    simpl in *; rewrite Htrace, extractor_calls_app, Hone;
    repeat split; lia.
Qed.

(** X4. The first to publish wins.  When an executable is emplaced under
    a key that is not in the cache, it is the one returned; a later emplace
    under a key that compares equal, as made by a caller that missed
    before the first one published, returns the executable published
    first, drops its own and leaves the cache as it is. *)
Theorem emplace_first_wins (key key' : CompilationKey AutotuneResult)
    (first second : option Executable) (w : World) :
  executable_cache w !! slot SerializeAsString key = None ->
  operator_eq SerializeAsString key' key = true ->
  let published := emplace SerializeAsString key first w in
  published.1 = Value first /\
  emplace SerializeAsString key' second published.2 =
    (Value first, published.2).
Proof.
  intros Hmiss Heq%operator_eq_slot published. subst published.
  unfold emplace. rewrite Hmiss. simpl. split; [done|].
  by rewrite Heq, lookup_insert_eq.
Qed.

(** X5. [CompileNoCache] calls the backend compiler only when the
    extractor has returned a module, then once, right after the extractor
    and on the module with the sanitised options; when the extractor fails,
    with or without the uncompilable-fusion payload, the extractor is the
    only collaborator called. *)
Theorem CompileNoCache_calls (original_computation : HloComputation)
    (module_extractor : ExtractModuleFn) (w : World) :
  trace (CompileNoCache original_computation module_extractor w).2 =
  trace w ++
    match module_extractor (trace w) with
    | OkValue module =>
        [EvModuleExtractor;
         EvCompilerRunBackend
           (set_debug_options module
              (backend_debug_options original_computation))]
    | NotOk _ => [EvModuleExtractor]
    end.
Proof.
  rewrite CompileNoCache_run. simpl.
  destruct (module_extractor (trace w)) as [module|e].
  - rewrite RunBackend_run. simpl. by rewrite <- app_assoc.
  - by destruct (has_value _).
Qed.

(** X6. The debug options the extractor left on the module play no part:
    [RunBackend] does the same whatever they are, since it replaces them
    wholesale by the sanitised options of the original computation. *)
Theorem RunBackend_ignores_module_options
    (original_computation : HloComputation) (module : HloModule)
    (o : DebugOptions) (w : World) :
  RunBackend original_computation (set_debug_options module o) w =
  RunBackend original_computation module w.
Proof. rewrite !RunBackend_run. reflexivity. Qed.

(** Closes a case of [warmup_and_timed_run_calls]: the runs stopped, or
    ended, after the calls made so far. *)
Ltac stopped_after timer :=
  simpl; exists timer; eexists;
  split; [by rewrite <- ?app_assoc|];
  split; [by eexists|];
  split; [|done];
  intros ? Hod; first [discriminate Hod | reflexivity].

(** *** More about profiling *)

(** Where the two runs stop: the calls made are an initial part of the five
    calls of a complete pair of runs, and all five when the runs return. *)
Lemma warmup_and_timed_run_calls executable stream input_buffers inputs w :
  ExecutionInputsFromBuffers executable input_buffers = Value inputs ->
  let r := warmup_and_timed_run env this executable stream input_buffers w in
  exists timer evs,
    trace r.2 = trace w ++ evs /\
    evs `prefix_of`
      [EvExecuteAsyncOnStreamWrapper executable
         (service_run_options this) inputs;
       EvBlockHostUntilDone stream;
       EvGpuTimerCreate stream;
       EvExecuteAsyncOnStreamWrapper executable
         (service_run_options this) inputs;
       EvGetElapsedDuration timer] /\
    (forall od, r.1 = Value od ->
       evs =
         [EvExecuteAsyncOnStreamWrapper executable
            (service_run_options this) inputs;
          EvBlockHostUntilDone stream;
          EvGpuTimerCreate stream;
          EvExecuteAsyncOnStreamWrapper executable
            (service_run_options this) inputs;
          EvGetElapsedDuration timer]) /\
    (forall what, r.1 <> Crashed what).
Proof.
  intros Hbind.
  unfold warmup_and_timed_run, timer_GetElapsedDuration, GpuTimer_Create_on,
    stream_BlockHostUntilDone, Execute, of_StatusOr, of_Status, lift.
  rewrite Hbind. run.
  destruct (ExecuteAsyncOnStreamWrapper _ _ _ _ _); [|stopped_after 0%Z]. run.
  destruct (BlockHostUntilDone _ _ _); [|stopped_after 0%Z]. run.
  destruct (GpuTimer_Create _ _ _) as [timer|]; [|stopped_after 0%Z]. run.
  destruct (ExecuteAsyncOnStreamWrapper _ _ _ _ _); [|stopped_after timer]. run.
  destruct (GetElapsedDuration _ _ _); [|stopped_after timer]. run.
  stopped_after timer.
Qed.

(** What the two runs return is what the collaborators answered to the
    timed run: the output of the second execution and the reading of the
    timer created after the drain. *)
Lemma warmup_and_timed_run_success executable stream input_buffers w
    execution_output timer_duration w2 :
  warmup_and_timed_run env this executable stream input_buffers w =
    (Value (execution_output, timer_duration), w2) ->
  exists inputs timer,
    let run := EvExecuteAsyncOnStreamWrapper executable
                 (service_run_options this) inputs in
    let drained := trace w ++ [run; EvBlockHostUntilDone stream] in
    ExecutionInputsFromBuffers executable input_buffers = Value inputs /\
    GpuTimer_Create env drained stream = OkValue timer /\
    ExecuteAsyncOnStreamWrapper env (drained ++ [EvGpuTimerCreate stream])
      executable (service_run_options this) inputs = OkValue execution_output /\
    GetElapsedDuration env (drained ++ [EvGpuTimerCreate stream; run]) timer =
      OkValue timer_duration /\
    w2 = {| executable_cache := executable_cache w;
            trace := drained ++
              [EvGpuTimerCreate stream; run; EvGetElapsedDuration timer] |}.
Proof.
  unfold warmup_and_timed_run, timer_GetElapsedDuration, GpuTimer_Create_on,
    stream_BlockHostUntilDone, Execute, of_StatusOr, of_Status, lift.
  run.
  destruct (ExecutionInputsFromBuffers _ _) as [inputs|?|?]; [|done..]. run.
  destruct (ExecuteAsyncOnStreamWrapper _ _ _ _ _); [|done]. run.
  destruct (BlockHostUntilDone _ _ _); [|done]. run.
  destruct (GpuTimer_Create _ _ _) as [timer|] eqn:Htimer; [|done]. run.
  destruct (ExecuteAsyncOnStreamWrapper _ _ _ _ _) eqn:Hrun; [|done]. run.
  destruct (GetElapsedDuration _ _ _) eqn:Hread; [|done]. run.
  intros [= <- <- <-]. exists inputs, timer. simpl.
  rewrite <- ?app_assoc in *. simpl in *. done.
Qed.

Lemma warmup_and_timed_run_unbound executable stream input_buffers w what :
  ExecutionInputsFromBuffers executable input_buffers = Crashed what ->
  warmup_and_timed_run env this executable stream input_buffers w =
    (Crashed what, w).
Proof.
  intros Hbind. unfold warmup_and_timed_run, lift.
  rewrite bind_run, Hbind. reflexivity.
Qed.

(** Closes a case of [warmup_and_timed_run_events]. *)
Ltac events_so_far :=
  simpl; eexists; split; [by rewrite <- ?app_assoc|];
  repeat (apply Forall_cons; split; [by auto|]); apply Forall_nil_2.

(** Whatever holds of the five kinds of call of the two runs holds of every
    call they make. *)
Lemma warmup_and_timed_run_events (P : Event -> Prop)
    executable stream input_buffers w :
  (forall inputs,
     P (EvExecuteAsyncOnStreamWrapper executable
          (service_run_options this) inputs)) ->
  P (EvBlockHostUntilDone stream) ->
  P (EvGpuTimerCreate stream) ->
  (forall timer, P (EvGetElapsedDuration timer)) ->
  exists evs,
    trace (warmup_and_timed_run env this executable stream input_buffers w).2 =
      trace w ++ evs /\
    Forall P evs.
Proof.
  intros Hrun Hdrain Hcreate Hread.
  unfold warmup_and_timed_run, timer_GetElapsedDuration, GpuTimer_Create_on,
    stream_BlockHostUntilDone, Execute, of_StatusOr, of_Status, lift.
  run.
  destruct (ExecutionInputsFromBuffers _ _) as [inputs|?|?];
    [|exists []; rewrite app_nil_r; by split..].
  run.
  destruct (ExecuteAsyncOnStreamWrapper _ _ _ _ _); [|events_so_far]. run.
  destruct (BlockHostUntilDone _ _ _); [|events_so_far]. run.
  destruct (GpuTimer_Create _ _ _) as [timer|]; [|events_so_far]. run.
  destruct (ExecuteAsyncOnStreamWrapper _ _ _ _ _); [|events_so_far]. run.
  destruct (GetElapsedDuration _ _ _); events_so_far.
Qed.

(** X7. Profiling changes the cache only through [Compile]: when
    [GenerateAndProfileExecutable] returns, on any outcome, the cache is the
    one [Compile] left, so that an executable compiled for a run that then
    failed stays cached. *)
Theorem GenerateAndProfileExecutable_cache (hlo_computation : HloComputation)
    (config : AutotuneResult) (cache_key : AutotuneCacheKey)
    (stream : Stream) (input_buffers : list DeviceMemoryBase)
    (output_buffer : DeviceMemoryBase) (extractor : ExtractModuleFn)
    (w : World) :
  executable_cache
    (GenerateAndProfileExecutable hlo_computation config cache_key stream
       input_buffers output_buffer extractor w).2 =
  executable_cache (Compile hlo_computation config cache_key extractor w).2.
Proof.
  rewrite GenerateAndProfileExecutable_run.
  destruct (Compile _ _ _ _ _) as [[[executable|]|e|what] w1]; try done.
  destruct (warmup_and_timed_run_spec executable stream input_buffers w1)
    as (Hcache & _).
  destruct (warmup_and_timed_run _ _ _ _ _ _) as [[[out d]|e|what] w2];
    try done.
  rewrite check_and_copy_run. by destruct (bool_decide _).
Qed.

(** X8. Once [Compile] has returned a value for a key, profiling under a
    key that compares equal compiles nothing: whatever the outcome of the
    first profiling run, and whatever extractor and computation the second
    is given, the second run calls neither the extractor nor the backend
    compiler, and it returns no measurement exactly when the value was the
    null marker. *)
Theorem profiling_again_compiles_nothing (hlo_computation : HloComputation)
    (config : AutotuneResult) (cache_key : AutotuneCacheKey)
    (stream : Stream) (input_buffers : list DeviceMemoryBase)
    (output_buffer : DeviceMemoryBase) (extractor : ExtractModuleFn)
    (w : World) (compiled : option Executable)
    (hlo_computation' : HloComputation)
    (config' : AutotuneResult) (cache_key' : AutotuneCacheKey)
    (stream' : Stream) (input_buffers' : list DeviceMemoryBase)
    (output_buffer' : DeviceMemoryBase) (extractor' : ExtractModuleFn) :
  (Compile hlo_computation config cache_key extractor w).1 = Value compiled ->
  operator_eq SerializeAsString
    {| autotune_key := cache_key'; res := config' |}
    {| autotune_key := cache_key; res := config |} = true ->
  let warm :=
    (GenerateAndProfileExecutable hlo_computation config cache_key stream
       input_buffers output_buffer extractor w).2 in
  let again :=
    GenerateAndProfileExecutable hlo_computation' config' cache_key' stream'
      input_buffers' output_buffer' extractor' warm in
  (exists evs,
     trace again.2 = trace warm ++ evs /\
     Forall (fun e => is_compile_event e = false) evs) /\
  (again.1 = Value None <-> compiled = None).
Proof.
  intros Hcompiled Heq%operator_eq_slot warm again.
  assert (executable_cache warm =
          executable_cache
            (Compile hlo_computation config cache_key extractor w).2)
    as Hkept.
  { subst warm. rewrite GenerateAndProfileExecutable_run.
    destruct (Compile _ _ _ _ _) as [[[executable|]|e|what] w1]; try done.
    destruct (warmup_and_timed_run_spec executable stream input_buffers w1)
      as (Hcache & _).
    destruct (warmup_and_timed_run _ _ _ _ _ _) as [[[out d]|e|what] w2];
      try done.
    rewrite check_and_copy_run. by destruct (bool_decide _). }
  assert (executable_cache warm
            !! slot SerializeAsString
                 {| autotune_key := cache_key'; res := config' |}
          = Some compiled) as Hhit.
  { rewrite Hkept, Heq.
    destruct (executable_cache w
                !! slot SerializeAsString
                     {| autotune_key := cache_key; res := config |})
      as [second|] eqn:Hfind.
    - rewrite (Compile_hit _ _ _ _ _ _ Hfind) in Hcompiled |- *.
      by injection Hcompiled as <-.
    - rewrite (Compile_miss _ _ _ _ _ Hfind) in Hcompiled |- *.
      destruct (CompileNoCache hlo_computation extractor w)
        as [[x|e|what] w']; simpl in *; try done.
      injection Hcompiled as <-. apply lookup_insert_eq. }
  subst again. rewrite GenerateAndProfileExecutable_run.
  rewrite (Compile_hit _ _ _ _ _ _ Hhit).
  destruct compiled as [executable|].
  - destruct (warmup_and_timed_run_events
                (fun e => is_compile_event e = false)
                executable stream' input_buffers' warm)
      as (evs & Htrace & Hevs); try done.
    destruct (warmup_and_timed_run _ _ _ _ _ _) as [[[out d]|e|what] w2];
      simpl in *; try (split; [by exists evs|by split]).
    rewrite check_and_copy_run. destruct (bool_decide _); simpl.
    + split; [|by split]. eexists. rewrite Htrace, <- app_assoc.
      split; [done|]. apply Forall_app. split; [done|by repeat constructor].
    + split; [by exists evs|by split].
  - split; [|done]. exists []. by rewrite app_nil_r.
Qed.

(** The two runs, call by call: each call is made after the ones before
    it were answered, and the first failure is returned at once. *)
Lemma warmup_and_timed_run_unrolled executable stream input_buffers inputs w :
  ExecutionInputsFromBuffers executable input_buffers = Value inputs ->
  let run := EvExecuteAsyncOnStreamWrapper executable
               (service_run_options this) inputs in
  let drain := EvBlockHostUntilDone stream in
  let create := EvGpuTimerCreate stream in
  warmup_and_timed_run env this executable stream input_buffers w =
  match ExecuteAsyncOnStreamWrapper env (trace w) executable
          (service_run_options this) inputs with
  | NotOk e => (Failed e, after w [run])
  | OkValue _ =>
  match BlockHostUntilDone env (trace w ++ [run]) stream with
  | NotOkStatus e => (Failed e, after w [run; drain])
  | OkStatus =>
  match GpuTimer_Create env (trace w ++ [run; drain]) stream with
  | NotOk e => (Failed e, after w [run; drain; create])
  | OkValue timer =>
  match ExecuteAsyncOnStreamWrapper env (trace w ++ [run; drain; create])
          executable (service_run_options this) inputs with
  | NotOk e => (Failed e, after w [run; drain; create; run])
  | OkValue execution_output =>
  match GetElapsedDuration env (trace w ++ [run; drain; create; run])
          timer with
  | NotOk e =>
      (Failed e,
       after w [run; drain; create; run; EvGetElapsedDuration timer])
  | OkValue timer_duration =>
      (Value (execution_output, timer_duration),
       after w [run; drain; create; run; EvGetElapsedDuration timer])
  end end end end end.
Proof.
  intros Hbind run drain create. subst run drain create.
  unfold warmup_and_timed_run, timer_GetElapsedDuration, GpuTimer_Create_on,
    stream_BlockHostUntilDone, Execute, of_StatusOr, of_Status, lift, after.
  rewrite Hbind. run.
  destruct (ExecuteAsyncOnStreamWrapper _ _ _ _ _); [|done]. run.
  destruct (BlockHostUntilDone _ _ _); [|by rewrite <- ?app_assoc]. run.
  rewrite <- !app_assoc. simpl.
  destruct (GpuTimer_Create _ _ _) as [timer|]; [|done]. run.
  rewrite <- !app_assoc. simpl.
  destruct (ExecuteAsyncOnStreamWrapper _ _ _ _ _); [|done]. run.
  rewrite <- !app_assoc. simpl.
  by destruct (GetElapsedDuration _ _ _).
Qed.

Lemma profiling_calls_split stream output_buffer executable inputs timer
    produced :
  profiling_calls this stream output_buffer executable inputs timer produced =
  [EvExecuteAsyncOnStreamWrapper executable (service_run_options this) inputs;
   EvBlockHostUntilDone stream;
   EvGpuTimerCreate stream;
   EvExecuteAsyncOnStreamWrapper executable (service_run_options this) inputs;
   EvGetElapsedDuration timer] ++
  [EvThenMemcpy stream output_buffer produced (size produced)].
Proof. reflexivity. Qed.

(** Splits a known list of calls [evs = pre ++ ...] at every place. *)
Ltac split_calls pre :=
  repeat (destruct pre as [|? pre]; simplify_eq/=);
  rewrite ?app_nil_r in *; simpl in *.

(** X9. With an executable at hand and as many buffers as it has
    parameters, the calls of [GenerateAndProfileExecutable] after [Compile]
    are always an initial part of one fixed sequence: warm-up execution,
    drain, timer creation, timed execution, timer reading, copy.  The run
    stops at the first failure and calls nothing after it: every call but
    the last one made was answered with an OK status, and when the last one
    was answered with a failure, that failure is what is returned.  The
    sequence is complete exactly when a duration is returned. *)
Theorem profiling_calls_in_order (hlo_computation : HloComputation)
    (config : AutotuneResult) (cache_key : AutotuneCacheKey)
    (stream : Stream) (input_buffers : list DeviceMemoryBase)
    (output_buffer : DeviceMemoryBase) (extractor : ExtractModuleFn)
    (w w1 : World) (executable : Executable) :
  Compile hlo_computation config cache_key extractor w =
    (Value (Some executable), w1) ->
  length (parameter_instructions executable) = length input_buffers ->
  let r :=
    GenerateAndProfileExecutable hlo_computation config cache_key stream
      input_buffers output_buffer extractor w in
  let inputs :=
    zip_with bound_input (parameter_instructions executable) input_buffers in
  exists timer produced evs,
    let all :=
      profiling_calls this stream output_buffer executable inputs timer
        produced in
    trace r.2 = trace w1 ++ evs /\
    evs `prefix_of` all /\
    (forall pre e post,
       evs = pre ++ e :: post -> post <> [] ->
       answered env (trace w1 ++ pre) e = OkStatus) /\
    (forall pre e failure,
       evs = pre ++ [e] ->
       answered env (trace w1 ++ pre) e = NotOkStatus failure ->
       r.1 = Failed failure) /\
    ((exists d, r.1 = Value (Some d)) <-> evs = all).
Proof.
  intros Hcompile Hbind%ExecutionInputsFromBuffers_eq r inputs.
  subst r. fold inputs in Hbind.
  rewrite GenerateAndProfileExecutable_run, Hcompile.
  rewrite (warmup_and_timed_run_unrolled _ _ _ _ _ Hbind).
  destruct (ExecuteAsyncOnStreamWrapper env (trace w1) _ _ _)
    as [out1|e1] eqn:H1.
  2:{ exists 0%Z, output_buffer. eexists. simpl.
      split; [reflexivity|]. split; [by eexists|].
      split; [intros pre e post Hevs Hpost; split_calls pre|].
      split; [intros pre e failure Hevs Hanswer; split_calls pre;
              rewrite H1 in Hanswer; by simplify_eq/=|].
      split; [by intros [? ?]|done]. }
  destruct (BlockHostUntilDone env _ _) as [|e2] eqn:H2.
  2:{ exists 0%Z, output_buffer. eexists. simpl.
      split; [reflexivity|]. split; [by eexists|].
      split; [intros pre e post Hevs Hpost; split_calls pre;
              by rewrite ?H1|].
      split; [intros pre e failure Hevs Hanswer; split_calls pre;
              rewrite H2 in Hanswer; by simplify_eq/=|].
      split; [by intros [? ?]|done]. }
  destruct (GpuTimer_Create env _ _) as [timer|e3] eqn:H3.
  2:{ exists 0%Z, output_buffer. eexists. simpl.
      split; [reflexivity|]. split; [by eexists|].
      split; [intros pre e post Hevs Hpost; split_calls pre;
              by rewrite ?H1, ?H2|].
      split; [intros pre e failure Hevs Hanswer; split_calls pre;
              rewrite H3 in Hanswer; by simplify_eq/=|].
      split; [by intros [? ?]|done]. }
  destruct (ExecuteAsyncOnStreamWrapper env (trace w1 ++ _) _ _ _)
    as [out|e4] eqn:H4.
  2:{ exists timer, output_buffer. eexists. simpl.
      split; [reflexivity|]. split; [by eexists|].
      split; [intros pre e post Hevs Hpost; split_calls pre;
              by rewrite ?H1, ?H2, ?H3|].
      split; [intros pre e failure Hevs Hanswer; split_calls pre;
              rewrite H4 in Hanswer; by simplify_eq/=|].
      split; [by intros [? ?]|done]. }
  destruct (GetElapsedDuration env _ _) as [d|e5] eqn:H5.
  2:{ exists timer, output_buffer. eexists. simpl.
      split; [reflexivity|]. split; [by eexists|].
      split; [intros pre e post Hevs Hpost; split_calls pre;
              by rewrite ?H1, ?H2, ?H3, ?H4|].
      split; [intros pre e failure Hevs Hanswer; split_calls pre;
              rewrite H5 in Hanswer; by simplify_eq/=|].
      split; [by intros [? ?]|done]. }
  rewrite check_and_copy_run. destruct (bool_decide _); simpl.
  - exists timer, (root_buffer out). eexists.
    rewrite <- app_assoc. simpl.
    split; [reflexivity|]. split; [done|].
    split; [intros pre e post Hevs Hpost; split_calls pre;
            by rewrite ?H1, ?H2, ?H3, ?H4, ?H5|].
    split; [intros pre e failure Hevs Hanswer; by split_calls pre|].
    split; [done|eauto].
  - exists timer, (root_buffer out). eexists.
    split; [reflexivity|]. split; [by eexists|].
    split; [intros pre e post Hevs Hpost; split_calls pre;
            by rewrite ?H1, ?H2, ?H3, ?H4|].
    split; [intros pre e failure Hevs Hanswer; split_calls pre;
            by rewrite H5 in Hanswer|].
    split; [by intros [? ?]|by intros ?].
Qed.

(** X10. [GenerateAndProfileExecutable] dies in one way only: [Compile]
    has returned an executable whose number of parameters differs from the
    number of input buffers.  It then dies on the first binding, in the
    world [Compile] left: the executable is compiled and cached, and
    nothing has been run. *)
Theorem dies_only_on_arity_mismatch (hlo_computation : HloComputation)
    (config : AutotuneResult) (cache_key : AutotuneCacheKey)
    (stream : Stream) (input_buffers : list DeviceMemoryBase)
    (output_buffer : DeviceMemoryBase) (extractor : ExtractModuleFn)
    (w : World) :
  let compiled := Compile hlo_computation config cache_key extractor w in
  let r :=
    GenerateAndProfileExecutable hlo_computation config cache_key stream
      input_buffers output_buffer extractor w in
  ((exists what, r.1 = Crashed what) <->
   exists executable,
     compiled.1 = Value (Some executable) /\
     length (parameter_instructions executable) <> length input_buffers) /\
  ((exists what, r.1 = Crashed what) -> r.2 = compiled.2).
Proof.
  intros compiled r. subst compiled r.
  rewrite GenerateAndProfileExecutable_run.
  pose proof (Compile_never_dies hlo_computation config cache_key extractor w)
    as Halive.
  destruct (Compile _ _ _ _ _) as [[[executable|]|e|what] w1]; simpl in *;
    [| split; [split; [by intros [? ?]|by intros (? & ? & ?)]|by intros [? ?]]..
     | by destruct (Halive what)].
  destruct (decide (length (parameter_instructions executable) =
                    length input_buffers)) as [Heq|Hne].
  - destruct (warmup_and_timed_run_calls executable stream input_buffers _ w1
                (ExecutionInputsFromBuffers_eq _ _ Heq))
      as (_ & _ & _ & _ & _ & Hnever).
    assert (forall what,
              (match warmup_and_timed_run env this executable stream
                       input_buffers w1 with
               | (Value (execution_output, timer_duration), w2) =>
                   match check_and_copy stream output_buffer
                           execution_output w2 with
                   | (Value _, w3) => (Value (Some timer_duration), w3)
                   | (Failed e, w3) => (Failed e, w3)
                   | (Crashed what, w3) => (Crashed what, w3)
                   end
               | (Failed e, w2) => (Failed e, w2)
               | (Crashed what, w2) => (Crashed what, w2)
               end).1 <> Crashed what) as Hnot.
    { intros what.
      destruct (warmup_and_timed_run _ _ _ _ _ _) as [[[out d]|e|what'] w2];
        simpl in *; [|done|by destruct (Hnever what')].
      rewrite check_and_copy_run. by destruct (bool_decide _). }
    split; [split|].
    + intros [what Hdead]. by destruct (Hnot what).
    + intros (executable' & [= <-] & Hne). done.
    + intros [what Hdead]. by destruct (Hnot what).
  - assert (ExecutionInputsFromBuffers executable input_buffers =
              Crashed "CHECK_EQ(params.size(), buffers.size())") as Hbind.
    { unfold ExecutionInputsFromBuffers. by rewrite decide_False. }
    rewrite (warmup_and_timed_run_unbound _ _ _ _ _ Hbind). simpl.
    split; [split|]; eauto.
Qed.

(** X11. [GenerateAndProfileExecutable] returns the empty optional exactly
    when [Compile] returned the null executable: no failure while running
    or copying is ever reported as "no measurement". *)
Theorem no_measurement_only_without_artifact
    (hlo_computation : HloComputation)
    (config : AutotuneResult) (cache_key : AutotuneCacheKey)
    (stream : Stream) (input_buffers : list DeviceMemoryBase)
    (output_buffer : DeviceMemoryBase) (extractor : ExtractModuleFn)
    (w : World) :
  (GenerateAndProfileExecutable hlo_computation config cache_key stream
     input_buffers output_buffer extractor w).1 = Value None <->
  (Compile hlo_computation config cache_key extractor w).1 = Value None.
Proof.
  rewrite GenerateAndProfileExecutable_run.
  destruct (Compile _ _ _ _ _) as [[[executable|]|e|what] w1]; simpl;
    try done.
  destruct (warmup_and_timed_run _ _ _ _ _ _) as [[[out d]|e|what] w2];
    simpl; try done.
  rewrite check_and_copy_run. by destruct (bool_decide _).
Qed.

(** X12. Every execution, warm-up or timed, is asked for with the
    exclusive lock on the GPU and on the device, stream and allocator of the
    utility object, while the drain, the timer and the copy go to the
    stream passed to [GenerateAndProfileExecutable]: the two streams are
    the same only if the caller passes the utility's own. *)
Theorem calls_on_streams (hlo_computation : HloComputation)
    (config : AutotuneResult) (cache_key : AutotuneCacheKey)
    (stream : Stream) (input_buffers : list DeviceMemoryBase)
    (output_buffer : DeviceMemoryBase) (extractor : ExtractModuleFn)
    (w : World) :
  exists evs,
    trace (GenerateAndProfileExecutable hlo_computation config cache_key
             stream input_buffers output_buffer extractor w).2 =
      trace w ++ evs /\
    Forall (on_streams this stream) evs.
Proof.
  rewrite GenerateAndProfileExecutable_run.
  destruct (Compile_trace hlo_computation config cache_key extractor w)
    as (compile_evs & Htrace1 & Hevs1).
  assert (Forall (on_streams this stream) compile_evs) as Hcompile.
  { eapply Forall_impl; [exact Hevs1|]. by intros []. }
  destruct (Compile _ _ _ _ _) as [[[executable|]|e|what] w1]; simpl in *;
    try by (exists compile_evs).
  destruct (warmup_and_timed_run_events (on_streams this stream)
              executable stream input_buffers w1)
    as (evs & Htrace2 & Hevs2); try done.
  assert (Forall (on_streams this stream) (compile_evs ++ evs)) as Hboth.
  { apply Forall_app. by split. }
  destruct (warmup_and_timed_run _ _ _ _ _ _) as [[[out d]|e|what] w2];
    simpl in *;
    try by (exists (compile_evs ++ evs); rewrite Htrace2, Htrace1, app_assoc).
  rewrite check_and_copy_run. destruct (bool_decide _); simpl.
  - eexists. rewrite Htrace2, Htrace1, <- !app_assoc.
    split; [reflexivity|]. rewrite app_assoc.
    apply Forall_app. split; [done|by repeat constructor].
  - exists (compile_evs ++ evs). by rewrite Htrace2, Htrace1, app_assoc.
Qed.

(** X13. The duration returned is the reading of the timer that was
    created after the drain, taken right after the timed execution, and the
    buffer copied to the caller is the root buffer of the output of the
    timed execution: the output of the warm-up run is not used. *)
Theorem measured_values_come_from_timed_run
    (hlo_computation : HloComputation)
    (config : AutotuneResult) (cache_key : AutotuneCacheKey)
    (stream : Stream) (input_buffers : list DeviceMemoryBase)
    (output_buffer : DeviceMemoryBase) (extractor : ExtractModuleFn)
    (w w' : World) (d : Duration) :
  GenerateAndProfileExecutable hlo_computation config cache_key stream
    input_buffers output_buffer extractor w = (Value (Some d), w') ->
  exists drained executable inputs timer execution_output,
    let run := EvExecuteAsyncOnStreamWrapper executable
                 (service_run_options this) inputs in
    trace w' =
      drained ++
        [EvGpuTimerCreate stream; run; EvGetElapsedDuration timer;
         EvThenMemcpy stream output_buffer (root_buffer execution_output)
           (size (root_buffer execution_output))] /\
    GpuTimer_Create env drained stream = OkValue timer /\
    ExecuteAsyncOnStreamWrapper env (drained ++ [EvGpuTimerCreate stream])
      executable (service_run_options this) inputs = OkValue execution_output /\
    GetElapsedDuration env (drained ++ [EvGpuTimerCreate stream; run]) timer =
      OkValue d.
Proof.
  rewrite GenerateAndProfileExecutable_run.
  destruct (Compile _ _ _ _ _) as [[[executable|]|e|what] w1]; try done.
  destruct (warmup_and_timed_run _ _ _ _ _ _) as [[[out d']|e|what] w2]
    eqn:Hruns; try done.
  apply warmup_and_timed_run_success in Hruns
    as (inputs & timer & _ & Htimer & Hrun & Hread & ->).
  rewrite check_and_copy_run. destruct (bool_decide _); [|done].
  intros [= <- <-]. simpl.
  eexists _, executable, inputs, timer, out. simpl.
  rewrite <- app_assoc. simpl. eauto.
Qed.

End Facts.

(** ** The sample setting, run *)

Example sample_measure_cold :
  (Sample.measure Sample.output Sample.extractor Sample.cold).1 =
  Value (Some 1500%Z).
Proof. vm_compute. reflexivity. Qed.

Example sample_measure_trace :
  trace (Sample.measure Sample.output Sample.extractor Sample.cold).2 =
  [EvModuleExtractor;
   EvCompilerRunBackend
     (set_debug_options Sample.extracted
        (backend_debug_options Sample.original));
   EvExecuteAsyncOnStreamWrapper Sample.identity_executable
     (service_run_options Sample.util) [bound_input {| shape := Sample.f32_1 |} Sample.input];
   EvBlockHostUntilDone 7%Z;
   EvGpuTimerCreate 7%Z;
   EvExecuteAsyncOnStreamWrapper Sample.identity_executable
     (service_run_options Sample.util) [bound_input {| shape := Sample.f32_1 |} Sample.input];
   EvGetElapsedDuration 1%Z;
   EvThenMemcpy 7%Z Sample.output Sample.produced 4%Z].
Proof. vm_compute. reflexivity. Qed.

(** Measuring again is a cache hit: the second run calls neither the
    extractor nor the backend. *)
Example sample_measure_again :
  let warm := (Sample.measure Sample.output Sample.extractor Sample.cold).2 in
  (Sample.measure Sample.output Sample.broken warm).1 = Value (Some 1500%Z) /\
  extractor_calls (trace (Sample.measure Sample.output Sample.broken warm).2)
  = 1.
Proof. vm_compute. split; reflexivity. Qed.

Example sample_measure_uncompilable :
  (Sample.measure Sample.output Sample.uncompilable Sample.cold).1 = Value None.
Proof. vm_compute. reflexivity. Qed.

Example sample_measure_short_output :
  (Sample.measure Sample.short_output Sample.extractor Sample.cold).1 =
  Failed {| error_code := Internal;
            message := "RET_CHECK failure output_buffer.size() == result.root_buffer().size()";
            payloads := [] |}.
Proof. vm_compute. reflexivity. Qed.

Example sample_measure_two_buffers :
  (GenerateAndProfileExecutable Sample.SerializeAsString
     Sample.kUncompilableFusion Sample.env Sample.util Sample.original
     Sample.candidate Sample.cache_key 7%Z [Sample.input; Sample.input]
     Sample.output Sample.extractor Sample.cold).1 =
  Crashed "CHECK_EQ(params.size(), buffers.size())".
Proof. vm_compute. reflexivity. Qed.

Example sample_clear_then_miss :
  let warm := (Sample.Compile Sample.extractor Sample.cold).2 in
  executable_cache (ClearCompilationCache warm).2
    !! slot Sample.SerializeAsString
         {| autotune_key := Sample.cache_key; res := Sample.candidate |} = None.
Proof. vm_compute. reflexivity. Qed.

(** ** The theorems at the sample setting *)

(** An unset candidate and a candidate set to its default make equal keys
    with equal hashes. *)
Lemma CompilationKey_identity_witness :
  operator_eq Sample.SerializeAsString
    {| autotune_key := Sample.cache_key; res := None |}
    {| autotune_key := Sample.cache_key; res := Some "" |} = true /\
  CompilationKey_AbslHashValue (H0 := Sample.recording_hash)
    Sample.SerializeAsString []
    {| autotune_key := Sample.cache_key; res := None |} =
  CompilationKey_AbslHashValue (H0 := Sample.recording_hash)
    Sample.SerializeAsString []
    {| autotune_key := Sample.cache_key; res := Some "" |}.
Proof.
  destruct (CompilationKey_identity Sample.SerializeAsString
              (H0 := Sample.recording_hash)
              Sample.cache_key Sample.cache_key None (Some ""))
    as (Heq & _ & Hhash).
  assert (operator_eq Sample.SerializeAsString
            {| autotune_key := Sample.cache_key; res := None |}
            {| autotune_key := Sample.cache_key; res := Some "" |} = true)
    as Hkeys.
  { apply Heq. split; reflexivity. }
  split; [exact Hkeys|]. apply Hhash. exact Hkeys.
Defined.

(** The first compilation calls the extractor once; after another key has
    been compiled, compiling again under the first key, even with an
    extractor that fails, returns the stored executable and changes
    nothing. *)
Lemma Compile_idempotent_witness :
  let first := Sample.Compile Sample.extractor Sample.cold in
  let between :=
    Compile Sample.SerializeAsString Sample.kUncompilableFusion Sample.env
      Sample.original Sample.candidate Scenario.other_key Sample.uncompilable
      first.2 in
  extractor_calls (trace first.2) = 1 /\
  extractor_calls (trace between.2) = 2 /\
  Sample.Compile Sample.broken between.2 =
    (Value (Some Sample.identity_executable), between.2).
Proof.
  destruct (Compile_idempotent Sample.SerializeAsString
              Sample.kUncompilableFusion Sample.env Sample.original
              Sample.candidate Sample.cache_key Sample.extractor Sample.cold)
    as (Hcalls & _ & Hstored).
  { reflexivity. }
  split; [exact Hcalls|]. split; [reflexivity|].
  destruct (Hstored (Some Sample.identity_executable)) as [Hheld Hlater].
  { vm_compute. reflexivity. }
  destruct (Hlater (Sample.Compile Sample.extractor Sample.cold).2
              Sample.original Sample.candidate Scenario.other_key
              Sample.uncompilable Hheld) as [Hkept _].
  destruct (Hlater _ Sample.original Sample.candidate Sample.cache_key
              Sample.broken Hkept) as [_ Hhit].
  apply Hhit. reflexivity.
Defined.

Lemma warmup_precedes_timed_run_witness :
  exists compile_evs executable inputs timer produced,
    Forall (fun e => is_compile_event e = true) compile_evs /\
    trace (Sample.measure Sample.output Sample.extractor Sample.cold).2 =
    trace Sample.cold ++ compile_evs ++
      [EvExecuteAsyncOnStreamWrapper executable
         (service_run_options Sample.util) inputs;
       EvBlockHostUntilDone 7%Z;
       EvGpuTimerCreate 7%Z;
       EvExecuteAsyncOnStreamWrapper executable
         (service_run_options Sample.util) inputs;
       EvGetElapsedDuration timer;
       EvThenMemcpy 7%Z Sample.output produced (size produced)].
Proof.
  apply (warmup_precedes_timed_run Sample.SerializeAsString
           Sample.kUncompilableFusion Sample.env Sample.util Sample.original
           Sample.candidate Sample.cache_key 7%Z [Sample.input] Sample.output
           Sample.extractor Sample.cold _ 1500%Z).
  vm_compute. reflexivity.
Defined.

Lemma no_artifact_no_measurement_witness :
  Sample.measure Sample.output Sample.uncompilable Sample.cold =
    (Value None, (Sample.Compile Sample.uncompilable Sample.cold).2) /\
  exists evs,
    trace (Sample.Compile Sample.uncompilable Sample.cold).2 =
      trace Sample.cold ++ evs /\
    Forall (fun e => is_compile_event e = true) evs.
Proof.
  apply (no_artifact_no_measurement Sample.SerializeAsString
           Sample.kUncompilableFusion Sample.env Sample.util Sample.original
           Sample.candidate Sample.cache_key 7%Z [Sample.input] Sample.output
           Sample.uncompilable Sample.cold).
  vm_compute. reflexivity.
Defined.

(** A 2-byte output buffer is refused without a copy. *)
Lemma output_size_check_witness :
  exists e w2,
    Sample.measure Sample.short_output Sample.extractor Sample.cold =
      (Failed e, w2) /\
    error_code e = Internal /\
    exists evs, trace w2 = trace Sample.cold ++ evs /\ no_memcpy evs.
Proof.
  pose (w1 := (Sample.Compile Sample.extractor Sample.cold).2).
  pose (w2 := (warmup_and_timed_run Sample.env Sample.util
                 Sample.identity_executable 7%Z [Sample.input] w1).2).
  destruct (output_size_check Sample.SerializeAsString
              Sample.kUncompilableFusion Sample.env Sample.util Sample.original
              Sample.candidate Sample.cache_key 7%Z [Sample.input]
              Sample.short_output Sample.extractor Sample.cold w1 w2
              Sample.identity_executable {| root_buffer := Sample.produced |}
              1500%Z)
    as [Hrefused _].
  { vm_compute. reflexivity. }
  { vm_compute. reflexivity. }
  destruct Hrefused as [(e & Hfailed & Hcode) Hevs].
  { vm_compute. discriminate. }
  exists e, w2. split; [exact Hfailed|]. split; [exact Hcode|exact Hevs].
Defined.

(** An extractor that fails outright leaves the cold cache cold. *)
Lemma Compile_failure_keeps_cache_witness :
  executable_cache (Sample.Compile Sample.broken Sample.cold).2 =
    executable_cache Sample.cold /\
  executable_cache (Sample.Compile Sample.broken Sample.cold).2
    !! slot Sample.SerializeAsString
         {| autotune_key := Sample.cache_key; res := Sample.candidate |} = None.
Proof.
  apply (Compile_failure_keeps_cache Sample.SerializeAsString
           Sample.kUncompilableFusion Sample.env Sample.original
           Sample.candidate Sample.cache_key Sample.broken Sample.cold
           {| error_code := InvalidArgument;
              message := "malformed fusion";
              payloads := [] |}).
  vm_compute. reflexivity.
Defined.

Lemma ExecutionInputsFromBuffers_binds_witness :
  exists inputs : list ExecutionInput,
    ExecutionInputsFromBuffers Sample.identity_executable [Sample.input] =
      Value inputs /\
    length inputs = 1 /\
    forall (i : nat) p b,
      parameter_instructions Sample.identity_executable !! i = Some p ->
      [Sample.input] !! i = Some b ->
      inputs !! i = Some (bound_input p b).
Proof.
  apply (proj1 (ExecutionInputsFromBuffers_binds Sample.identity_executable
                  [Sample.input])).
  reflexivity.
Defined.

(** ** Negative results stay *)

(** X14. Resource exhaustion is remembered.  When, on a miss, the
    extractor returns a module and the backend compiler fails with the
    resource-exhausted code, [Compile] returns the null executable and
    stores it under the key.  In any world whose cache holds the null
    executable under the key, every call of [Compile], under any key and
    with any collaborators, leaves it there, and every call whose key
    compares equal returns the null executable without calling anybody,
    even with collaborators whose backend would now succeed: the
    compilation is not tried again, whatever else is compiled in between,
    as long as the entry is not cleared. *)
Theorem resource_exhaustion_is_cached {AutotuneResult : Type}
    (SerializeAsString : AutotuneResult -> string)
    (kUncompilableFusion : string) (env env' : Collaborators)
    (hlo_computation : HloComputation) (res : AutotuneResult)
    (cache_key : AutotuneCacheKey) (extractor : ExtractModuleFn) (w : World)
    (module : HloModule) (e : Error) :
  let key := {| autotune_key := cache_key; res := res |} in
  executable_cache w !! slot SerializeAsString key = None ->
  extractor (trace w) = OkValue module ->
  compiler_RunBackend env (trace w ++ [EvModuleExtractor])
    (set_debug_options module (backend_debug_options hlo_computation)) =
    NotOk e ->
  error_code e = ResourceExhausted ->
  let first :=
    Compile SerializeAsString kUncompilableFusion env hlo_computation res
      cache_key extractor w in
  first.1 = Value None /\
  executable_cache first.2 !! slot SerializeAsString key = Some None /\
  forall w2 hlo_computation' res' cache_key' extractor',
    executable_cache w2 !! slot SerializeAsString key = Some None ->
    let later :=
      Compile SerializeAsString kUncompilableFusion env' hlo_computation'
        res' cache_key' extractor' w2 in
    executable_cache later.2 !! slot SerializeAsString key = Some None /\
    (operator_eq SerializeAsString
       {| autotune_key := cache_key'; res := res' |} key = true ->
     later = (Value None, w2)).
Proof.
  intros key Hmiss Hextracted Hbackend Hcode first. subst first.
  rewrite (Compile_miss _ _ _ _ _ _ _ _ Hmiss).
  rewrite CompileNoCache_run, Hextracted. simpl.
  rewrite RunBackend_run. simpl. rewrite Hbackend.
  rewrite decide_True by done. simpl. split; [done|].
  split; [apply lookup_insert_eq|].
  intros w2 hlo_computation' res' cache_key' extractor' Hheld.
  split; [by apply Compile_keeps_entries|].
  intros Heq%operator_eq_slot. apply Compile_hit. by rewrite Heq.
Qed.

(** ** The further theorems at the sample setting *)

Lemma Compile_returns_what_it_stores_witness :
  executable_cache (Sample.Compile Sample.uncompilable Sample.cold).2
    !! slot Sample.SerializeAsString
         {| autotune_key := Sample.cache_key; res := Sample.candidate |}
  = Some None.
Proof.
  apply (Compile_returns_what_it_stores Sample.SerializeAsString
           Sample.kUncompilableFusion Sample.env Sample.original
           Sample.candidate Sample.cache_key Sample.uncompilable Sample.cold).
  vm_compute. reflexivity.
Defined.

(** Two callers race on a cold key with candidates that serialise alike:
    the second to publish gets the first one's executable. *)
Lemma emplace_first_wins_witness :
  let published :=
    emplace Sample.SerializeAsString
      {| autotune_key := Sample.cache_key; res := None |}
      (Some Sample.identity_executable) Sample.cold in
  published.1 = Value (Some Sample.identity_executable) /\
  emplace Sample.SerializeAsString
    {| autotune_key := Sample.cache_key; res := Some "" |} None published.2 =
  (Value (Some Sample.identity_executable), published.2).
Proof.
  apply (emplace_first_wins Sample.SerializeAsString
           {| autotune_key := Sample.cache_key; res := None |}
           {| autotune_key := Sample.cache_key; res := Some "" |}
           (Some Sample.identity_executable) None Sample.cold).
  - reflexivity.
  - reflexivity.
Defined.

(** The first run fails at the size check; the second, with an extractor
    that would fail, still measures, and compiles nothing. *)
Lemma profiling_again_compiles_nothing_witness :
  (exists evs,
     trace (Sample.measure Sample.output Sample.broken
              (Sample.measure Sample.short_output Sample.extractor
                 Sample.cold).2).2 =
     trace (Sample.measure Sample.short_output Sample.extractor
              Sample.cold).2 ++ evs /\
     Forall (fun e => is_compile_event e = false) evs) /\
  ((Sample.measure Sample.output Sample.broken
      (Sample.measure Sample.short_output Sample.extractor Sample.cold).2).1 =
   Value None <-> Some Sample.identity_executable = None).
Proof.
  apply (profiling_again_compiles_nothing Sample.SerializeAsString
           Sample.kUncompilableFusion Sample.env Sample.util Sample.original
           Sample.candidate Sample.cache_key 7%Z [Sample.input]
           Sample.short_output Sample.extractor Sample.cold
           (Some Sample.identity_executable) Sample.original
           Sample.candidate Sample.cache_key 7%Z [Sample.input]
           Sample.output Sample.broken).
  - vm_compute. reflexivity.
  - reflexivity.
Defined.

(** The drain fails: the run stops there. *)
Lemma profiling_calls_in_order_witness :
  let r :=
    GenerateAndProfileExecutable Sample.SerializeAsString
      Sample.kUncompilableFusion Scenario.stalls Sample.util
      Sample.original Sample.candidate Sample.cache_key 7%Z
      [Sample.input] Sample.output Sample.extractor Sample.cold in
  let w1 :=
    (Compile Sample.SerializeAsString Sample.kUncompilableFusion
       Scenario.stalls Sample.original Sample.candidate
       Sample.cache_key Sample.extractor Sample.cold).2 in
  let inputs :=
    zip_with bound_input
      (parameter_instructions Sample.identity_executable) [Sample.input] in
  exists timer produced evs,
    let all :=
      profiling_calls Sample.util 7%Z Sample.output
        Sample.identity_executable inputs timer produced in
    trace r.2 = trace w1 ++ evs /\
    evs `prefix_of` all /\
    (forall pre e post,
       evs = pre ++ e :: post -> post <> [] ->
       answered Scenario.stalls (trace w1 ++ pre) e = OkStatus) /\
    (forall pre e failure,
       evs = pre ++ [e] ->
       answered Scenario.stalls (trace w1 ++ pre) e = NotOkStatus failure ->
       r.1 = Failed failure) /\
    ((exists d, r.1 = Value (Some d)) <-> evs = all).
Proof.
  apply (profiling_calls_in_order Sample.SerializeAsString
           Sample.kUncompilableFusion Scenario.stalls Sample.util
           Sample.original Sample.candidate Sample.cache_key 7%Z
           [Sample.input] Sample.output Sample.extractor Sample.cold).
  - vm_compute. reflexivity.
  - reflexivity.
Defined.

(** With the drain failing, the run makes two calls and returns the
    drain's failure. *)
Example sample_stalled_run :
  let r :=
    GenerateAndProfileExecutable Sample.SerializeAsString
      Sample.kUncompilableFusion Scenario.stalls Sample.util
      Sample.original Sample.candidate Sample.cache_key 7%Z
      [Sample.input] Sample.output Sample.extractor Sample.cold in
  r.1 = Failed {| error_code := Internal;
                  message := "stream is in a bad state";
                  payloads := [] |} /\
  length (trace r.2) = 4.
Proof. vm_compute. split; reflexivity. Qed.

Lemma measured_values_come_from_timed_run_witness :
  exists drained executable inputs timer execution_output,
    trace (Sample.measure Sample.output Sample.extractor Sample.cold).2 =
      drained ++
        [EvGpuTimerCreate 7%Z;
         EvExecuteAsyncOnStreamWrapper executable
           (service_run_options Sample.util) inputs;
         EvGetElapsedDuration timer;
         EvThenMemcpy 7%Z Sample.output (root_buffer execution_output)
           (size (root_buffer execution_output))] /\
    GpuTimer_Create Sample.env drained 7%Z = OkValue timer /\
    ExecuteAsyncOnStreamWrapper Sample.env (drained ++ [EvGpuTimerCreate 7%Z])
      executable (service_run_options Sample.util) inputs =
      OkValue execution_output /\
    GetElapsedDuration Sample.env
      (drained ++
         [EvGpuTimerCreate 7%Z;
          EvExecuteAsyncOnStreamWrapper executable
            (service_run_options Sample.util) inputs]) timer =
      OkValue 1500%Z.
Proof.
  apply (measured_values_come_from_timed_run Sample.SerializeAsString
           Sample.kUncompilableFusion Sample.env Sample.util Sample.original
           Sample.candidate Sample.cache_key 7%Z [Sample.input] Sample.output
           Sample.extractor Sample.cold).
  vm_compute. reflexivity.
Defined.

(** The backend is out of resources on the first compilation only; after
    another key has been compiled, the null executable is still returned
    under the first key. *)
Lemma resource_exhaustion_is_cached_witness :
  let first :=
    Compile Sample.SerializeAsString Sample.kUncompilableFusion
      Scenario.flaky Sample.original Sample.candidate Sample.cache_key
      Sample.extractor Sample.cold in
  let between :=
    Compile Sample.SerializeAsString Sample.kUncompilableFusion Sample.env
      Sample.original Sample.candidate Scenario.other_key Sample.extractor
      first.2 in
  first.1 = Value None /\
  between.1 = Value (Some Sample.identity_executable) /\
  Compile Sample.SerializeAsString Sample.kUncompilableFusion Sample.env
    Sample.original Sample.candidate Sample.cache_key Sample.extractor
    between.2 = (Value None, between.2).
Proof.
  destruct (resource_exhaustion_is_cached Sample.SerializeAsString
              Sample.kUncompilableFusion Scenario.flaky Sample.env
              Sample.original Sample.candidate Sample.cache_key
              Sample.extractor Sample.cold Sample.extracted
              Scenario.exhausted)
    as (Hnull & Hheld & Hlater); try reflexivity.
  split; [exact Hnull|]. split; [reflexivity|].
  destruct (Hlater _ Sample.original Sample.candidate Scenario.other_key
              Sample.extractor Hheld) as [Hkept _].
  destruct (Hlater _ Sample.original Sample.candidate Sample.cache_key
              Sample.extractor Hkept) as [_ Hhit].
  apply Hhit. reflexivity.
Defined.
